(** * LTCHandler: balance arithmetic, spend selection and the send lifecycle

    A shallow embedding of [src/handlers/LTC/LTCHandler.ts].

    - [BigNumber] values (bignumber.js) are rationals; [plus] and [times] are
      exact, [dividedBy] rounds to [DECIMAL_PLACES] digits with ROUND_HALF_UP,
      the library's defaults.
    - Asynchronous code runs in the monad [M]: a computation threads the
      [World] (the record of calls made to the external collaborators) and
      either returns a value or throws an [Error].
    - [sendSats] returns a PromiEvent; its behaviour is the transition system
      whose states are [State] and whose steps are the resumption of the
      async body at its pending [await] ([resume]) and one tick of the
      confirmation monitor ([tick]). *)

From Stdlib Require Import ZArith QArith List String Ascii Bool Lia.
From Stdlib Require Import Sorting.Permutation Sorting.Sorted.
Import ListNotations.

Local Open Scope Z_scope.

(* ------------------------------------------------------------------ *)
(** ** bignumber.js *)

Module BigNumber.

Definition t := Q.

(** [new BigNumber(n)] for an integral JavaScript number. *)
Definition ofZ (n : Z) : t := inject_Z n.

(** [x.plus(y)] and [x.times(y)]: always exact. *)
Definition plus (x y : t) : t := Qplus x y.
Definition times (x y : t) : t := Qmult x y.

(** [x.exponentiatedBy(n)] for a non-negative integer [n]
    (POW_PRECISION is 0: the power is not truncated). *)
Definition exponentiatedBy (x : t) (n : nat) : t := Qpower x (Z.of_nat n).

Definition DECIMAL_PLACES : nat := 20.

(** ROUND_HALF_UP to an integer: the nearest neighbour, away from zero
    when equidistant. *)
Definition roundHalfUp (q : Q) : Z :=
  let n := Qnum q in
  let d := Zpos (Qden q) in
  Z.sgn n * ((2 * Z.abs n + d) / (2 * d)).

(** [x.dividedBy(y)]: the quotient rounded to [DECIMAL_PLACES] decimal
    places. *)
Definition dividedBy (x y : t) : t :=
  let scale := Qpower (inject_Z 10) (Z.of_nat DECIMAL_PLACES) in
  Qdiv (inject_Z (roundHalfUp (Qmult (Qdiv x y) scale))) scale.

End BigNumber.

(* ------------------------------------------------------------------ *)
(** ** UTXOs *)

(** Modelled from the spec: the declaration of [UTXO] ([lib/utxo]) is not
    part of the sources.  The spec gives
    [{ txHash, vOut, amount: integer, confirmations: integer, ... }]; the
    handler reads [amount] and [confirmations]. *)
Record UTXO := mkUTXO {
  utxoTxHash : string;
  vOut : Z;
  amount : Z;
  confirmations : Z
}.

(* ------------------------------------------------------------------ *)
(** ** Immutable.js lists, as far as [sendSats] uses them *)

Module Immutable.

Section SortBy.
Context {A : Type} (mapper : A -> Z).

(** [sortBy] is a stable sort, ascending in the mapped value under the
    default comparator.  An element is inserted in front of the first
    element whose key is not smaller, so that equal keys keep their
    input order. *)
Fixpoint insert (x : A) (l : list A) : list A :=
  match l with
  | [] => [x]
  | y :: l' => if mapper x <=? mapper y then x :: l else y :: insert x l'
  end.

Definition sortBy (l : list A) : list A := fold_right insert [] l.
End SortBy.

Definition reverse {A : Type} (l : list A) : list A := rev l.
Definition toArray {A : Type} (l : list A) : list A := l.
Definition List {A : Type} (l : list A) : list A := l.

End Immutable.

(** Lines 191-199 of [sendSats]:
    [List(fetched).sortBy((utxo) => utxo.amount).reverse().toArray()]. *)
Definition spendCandidates (fetched : list UTXO) : list UTXO :=
  Immutable.toArray
    (Immutable.reverse (Immutable.sortBy amount (Immutable.List fetched))).

(** The amounts are in non-increasing order. *)
Definition descending (l : list UTXO) : Prop :=
  StronglySorted (fun a b => amount b <= amount a) l.

(** [utxos.reduce((sum, utxo) => sum.plus(utxo.amount), new BigNumber(0))] *)
Definition sumAmounts (utxos : list UTXO) : BigNumber.t :=
  fold_left (fun sum utxo => BigNumber.plus sum (BigNumber.ofZ (amount utxo)))
            utxos (BigNumber.ofZ 0).

(** The sum of the amounts in integer space. *)
Definition totalAmount (utxos : list UTXO) : Z :=
  fold_right (fun utxo acc => amount utxo + acc) 0 utxos.

Definition decimals : nat := 8.

(** Four outputs with the amounts of the spec's examples. *)
Definition utxoOf (n : Z) : UTXO :=
  {| utxoTxHash := "tx"; vOut := 0; amount := n; confirmations := 1 |}.

Definition exampleUTXOs : list UTXO :=
  map utxoOf [500000000; 300000000; 1000000000; 100000000].

(* ------------------------------------------------------------------ *)
(** ** Assets and [handlesAsset] *)

#[local] Set Warnings "-register-all".

(** What a JavaScript caller can throw or reject with.  The last two follow
    the spec's taxonomy for the fallback and retry helpers. *)
Inductive Error : Type :=
| ProviderError (msg : string)
| BuildError (msg : string)
| TypeError (msg : string)
| AggregatedError (failures : list Error)
| RetryExhaustedError (last : Error).

(** Modelled from the spec: the declaration of [Asset] ([types/types]) is not
    part of the sources.  At run time an asset is any JavaScript value; the
    handler only asks for its [typeof] and, for strings, its upper case. *)
Inductive Asset : Type :=
| AssetString (s : string)
| AssetNumber (n : Z)
| AssetBoolean (b : bool)
| AssetObject (fields : list (string * string))
| AssetNull
| AssetUndefined.

Definition typeof (a : Asset) : string :=
  match a with
  | AssetString _ => "string"
  | AssetNumber _ => "number"
  | AssetBoolean _ => "boolean"
  | AssetObject _ => "object"
  | AssetNull => "object"
  | AssetUndefined => "undefined"
  end.

(** [Array.prototype.indexOf]: the first index holding [x], or [-1]. *)
Fixpoint indexOfFrom (i : Z) (arr : list string) (x : string) : Z :=
  match arr with
  | [] => -1
  | y :: arr' => if String.eqb y x then i else indexOfFrom (i + 1) arr' x
  end.

Definition indexOf (arr : list string) (x : string) : Z := indexOfFrom 0 arr x.

(** The ASCII part of [String.prototype.toUpperCase]. *)
Definition asciiUpperChar (c : ascii) : ascii :=
  let n := nat_of_ascii c in
  if (Nat.leb 97 n && Nat.leb n 122)%bool then ascii_of_nat (n - 32) else c.

Fixpoint asciiUpper (s : string) : string :=
  match s with
  | EmptyString => EmptyString
  | String c s' => String (asciiUpperChar c) (asciiUpper s')
  end.

Fixpoint isASCII (s : string) : bool :=
  match s with
  | EmptyString => true
  | String c s' => (Nat.ltb (nat_of_ascii c) 128 && isASCII s')%bool
  end.

Section HandlesAsset.

(** [String.prototype.toUpperCase] of the JavaScript runtime (the full
    Unicode mapping). *)
Variable toUpperCase : string -> string.

(** [asset.toUpperCase()]: a method call, which throws on a value that has
    no such method. *)
Definition callToUpperCase (asset : Asset) : Error + string :=
  match asset with
  | AssetString s => inr (toUpperCase s)
  | _ => inl (TypeError "asset.toUpperCase is not a function")
  end.

(** Lines 130-132; [&&] evaluates its right operand only when the left one
    holds. *)
Definition handlesAsset (asset : Asset) : Error + bool :=
  if String.eqb (typeof asset) "string" then
    match callToUpperCase asset with
    | inl e => inl e
    | inr upper => inr (negb (indexOf ["LTC"; "LITECOIN"]%string upper =? -1))
    end
  else inr false.

End HandlesAsset.

(* ------------------------------------------------------------------ *)
(** ** The outside world *)

Record TxOptions := mkTxOptions {
  opt_address : option string;
  opt_confirmations : option Z;
  opt_fee : option Z;
  opt_subtractFee : option bool
}.

Inductive Network : Type := litecoin | litecoinTest.

(** A transaction returned by the builder; only [toHex()] is used. *)
Record Built := mkBuilt { toHex : string }.

(** A call to an external collaborator, with the arguments the handler
    passes (the opaque private key is left out). *)
Inductive Request : Type :=
| GetAddress
| FetchUTXOs (network : string) (address : string) (minConfirmations : Z)
| FetchUTXO (network : string) (txHash : string) (index : Z)
| BuildUTXO (network : Network) (changeAddress toAddress : string)
            (value : BigNumber.t) (utxos : list UTXO)
            (options : option TxOptions)
| BroadcastTransaction (network : string) (hex : string).

(** The calls made so far, oldest first.  [clock] counts them. *)
Record World := mkWorld {
  clock : nat;
  calls : list Request
}.

(** The collaborators.  The first argument is the number of calls made
    before this one, so that an answer may change from one attempt to the
    next. *)
Record Env := mkEnv {
  privateKey_getAddress : nat -> Error + string;
  Sochain_fetchUTXOs : nat -> string -> string -> Z -> Error + list UTXO;
  Sochain_fetchUTXO : nat -> string -> string -> Z -> Error + UTXO;
  Sochain_broadcastTransaction : nat -> string -> string -> Error + string;
  BitgoUTXOLib_buildUTXO :
    nat -> Network -> string -> string -> BigNumber.t -> list UTXO ->
    option TxOptions -> Error + Built
}.

(** Asynchronous computations. *)
Definition M (A : Type) : Type := World -> (Error + A) * World.

Definition ret {A : Type} (a : A) : M A := fun w => (inr a, w).

Definition throw {A : Type} (e : Error) : M A := fun w => (inl e, w).

Definition bind {A B : Type} (m : M A) (k : A -> M B) : M B :=
  fun w =>
    match m w with
    | (inr a, w') => k a w'
    | (inl e, w') => (inl e, w')
    end.

Notation "x <- m ;; k" := (bind m (fun x => k))
  (at level 61, m at next level, right associativity).

Definition call {A : Type} (req : Request) (answer : nat -> Error + A) : M A :=
  fun w => (answer (clock w),
            {| clock := S (clock w); calls := calls w ++ [req] |}).

(* ------------------------------------------------------------------ *)
(** ** [lib/retry] *)

(** Modelled from the spec: [fallback] ([lib/retry]) is not part of the
    sources.  The endpoints are invoked strictly in order; the first success
    is returned and later endpoints are not invoked; when all fail the
    failures are aggregated in endpoint order. *)
Fixpoint fallbackFrom {A : Type} (failures : list Error)
         (endpoints : list (M A)) : M A :=
  match endpoints with
  | [] => throw (AggregatedError failures)
  | endpoint :: rest =>
      fun w =>
        match endpoint w with
        | (inr a, w') => (inr a, w')
        | (inl e, w') => fallbackFrom (failures ++ [e]) rest w'
        end
  end.

Definition fallback {A : Type} (endpoints : list (M A)) : M A :=
  fallbackFrom [] endpoints.

(** Modelled from the spec: [retryNTimes] ([lib/retry]) is not part of the
    sources.  The operation is invoked up to [maxAttempts] times, stopping
    at the first success; when the last attempt fails the result is a
    [RetryExhaustedError] wrapping the last failure only.  ([maxAttempts] is
    positive in the spec; with [0] nothing is invoked.) *)
Fixpoint retryFrom {A : Type} (last : Error) (operation : M A)
         (attempts : nat) : M A :=
  match attempts with
  | O => throw (RetryExhaustedError last)
  | S attempts' =>
      fun w =>
        match operation w with
        | (inr a, w') => (inr a, w')
        | (inl e, w') => retryFrom e operation attempts' w'
        end
  end.

Definition retryNTimes {A : Type} (operation : M A) (maxAttempts : nat) : M A :=
  retryFrom (AggregatedError []) operation maxAttempts.

(* ------------------------------------------------------------------ *)
(** ** The handler *)

Section Handler.

Variable env : Env.

(** [this.testnet] *)
Variable testnet : bool.

Definition sochainNetwork : string := if testnet then "LTCTEST" else "LTC".

Definition bitcoinNetwork : Network :=
  if testnet then litecoinTest else litecoin.

(** [_apiFallbacks]: each entry is the list of endpoints to fall back
    through. *)
Definition apiFallbacks_fetchUTXO (txHash : string) (index : Z)
  : list (M UTXO) :=
  [ call (FetchUTXO sochainNetwork txHash index)
         (fun n => Sochain_fetchUTXO env n sochainNetwork txHash index) ].

Definition apiFallbacks_fetchUTXOs (address : string) (minConfirmations : Z)
  : list (M (list UTXO)) :=
  [ call (FetchUTXOs sochainNetwork address minConfirmations)
         (fun n => Sochain_fetchUTXOs env n sochainNetwork address
                                      minConfirmations) ].

Definition apiFallbacks_broadcastTransaction (hex : string)
  : list (M string) :=
  [ call (BroadcastTransaction sochainNetwork hex)
         (fun n => Sochain_broadcastTransaction env n sochainNetwork hex) ].

(** [{...options}.confirmations] *)
Definition spreadConfirmations (options : option TxOptions) : option Z :=
  match options with
  | Some o => opt_confirmations o
  | None => None
  end.

(** [LTCHandler.getUTXOs(testnet, { ...options, address })], lines 65-86.
    ([scriptHash] is passed on to [_apiFallbacks.fetchUTXOs], which does not
    use it.) *)
Definition getUTXOs (address : string) (confirmationsOpt : option Z)
  : M (list UTXO) :=
  let minConfirmations :=
    match confirmationsOpt with
    | Some c => c
    | None => 0
    end in
  fallback (apiFallbacks_fetchUTXOs address minConfirmations).

(** [this.address(asset)], lines 134-137. *)
Definition address (asset : Asset) : M string :=
  call GetAddress (privateKey_getAddress env).

(** A JavaScript string is truthy unless it is empty. *)
Definition truthy (s : string) : bool := negb (String.eqb s "").

(** The UTXOs of [getBalanceInSats], lines 152-156:
    the address is [(options && options.address) || (await this.address(asset))]. *)
Definition balanceUTXOs (asset : Asset) (options : option TxOptions)
  : M (list UTXO) :=
  addr <- match options with
          | Some {| opt_address := Some a |} =>
              if truthy a then ret a else address asset
          | _ => address asset
          end ;;
  getUTXOs addr (spreadConfirmations options).

(** Lines 148-161. *)
Definition getBalanceInSats (asset : Asset) (options : option TxOptions)
  : M BigNumber.t :=
  utxos <- balanceUTXOs asset options ;;
  ret (sumAmounts utxos).

(** Lines 140-146. *)
Definition getBalance (asset : Asset) (options : option TxOptions)
  : M BigNumber.t :=
  sats <- getBalanceInSats asset options ;;
  ret (BigNumber.dividedBy sats
         (BigNumber.exponentiatedBy (BigNumber.ofZ 10) decimals)).

(** Lines 240-248: the confirmations of the first output. *)
Definition _getConfirmations (txHash : string) : M Z :=
  utxo <- fallback (apiFallbacks_fetchUTXO txHash 0) ;;
  ret (confirmations utxo).

End Handler.

(* ------------------------------------------------------------------ *)
(** ** The send lifecycle *)

(** Modelled from the spec: [newPromiEvent] ([lib/promiEvent]) is not part
    of the sources.  The handle is an event emitter with a single outcome,
    resolved or rejected once; the model keeps the calls made on it, in
    order. *)
Inductive EventName : Type :=
| TransactionHash (hash : string)
| Confirmation (count : Z).

Inductive Obs : Type :=
| Subscribed                  (* [subscribeToConfirmations(promiEvent, ..)] *)
| Emitted (event : EventName) (* [promiEvent.emit(name, value)] *)
| Resolved (hash : string)    (* [promiEvent.resolve(hash)] *)
| Rejected (error : Error).   (* [promiEvent.reject(error)] *)

(** The [await] at which the async body of [sendSats] is suspended, with the
    locals already bound. *)
Inductive Phase : Type :=
| AwaitAddress
| AwaitUTXOs (fromAddress : string)
| AwaitBuild (fromAddress : string) (utxos : list UTXO)
| AwaitBroadcast (built : Built)
| Finished.

(** The monitor, once subscribed, is active until it stops for good. *)
Inductive Monitor : Type := Active | Stopped.

(** The arguments and [this.testnet], captured by the closures. *)
Record Closure := mkClosure {
  this_testnet : bool;
  to : string;
  valueIn : BigNumber.t;
  asset : Asset;
  options : option TxOptions
}.

(** [txHash] and [errored] are the two [let] variables of [sendSats]; an
    unassigned [txHash] is [None], an unassigned [errored] is falsy. *)
Record State := mkState {
  closure : Closure;
  phase : Phase;
  txHash : option string;
  errored : bool;
  log : list Obs;
  monitor : Monitor;
  world : World
}.

(** What the pending [await] delivers: the next suspension point, or the
    hash of the broadcast. *)
Inductive Progress : Type :=
| Continue (next : Phase)
| Broadcasted (hash : string).

Section Lifecycle.

Variable env : Env.

(** The code between one [await] and the next, lines 189-222. *)
Definition awaited (c : Closure) (p : Phase) : M Progress :=
  match p with
  | AwaitAddress =>
      fromAddress <- address env (asset c) ;;
      ret (Continue (AwaitUTXOs fromAddress))
  | AwaitUTXOs fromAddress =>
      fetched <- getUTXOs env (this_testnet c) fromAddress
                          (spreadConfirmations (options c)) ;;
      ret (Continue (AwaitBuild fromAddress (spendCandidates fetched)))
  | AwaitBuild fromAddress utxos =>
      let changeAddress := fromAddress in
      built <- call (BuildUTXO (bitcoinNetwork (this_testnet c)) changeAddress
                               (to c) (valueIn c) utxos (options c))
                    (fun n => BitgoUTXOLib_buildUTXO env n
                                (bitcoinNetwork (this_testnet c)) changeAddress
                                (to c) (valueIn c) utxos (options c)) ;;
      ret (Continue (AwaitBroadcast built))
  | AwaitBroadcast built =>
      hash <- retryNTimes
                (fallback (apiFallbacks_broadcastTransaction
                             env (this_testnet c) (toHex built)))
                3 ;;
      ret (Broadcasted hash)
  | Finished => ret (Continue Finished)
  end.

(** The async body is resumed at its pending [await]: the outcome of the
    awaited operation is delivered and the body runs to its next [await].
    After the broadcast, lines 213, 224 and 225 run without suspension.  A
    failure anywhere runs the [catch] handler, lines 226-229. *)
Definition resume (s : State) : State :=
  match phase s with
  | Finished => s
  | p =>
      match awaited (closure s) p (world s) with
      | (inr (Continue next), w') =>
          {| closure := closure s; phase := next; txHash := txHash s;
             errored := errored s; log := log s; monitor := monitor s;
             world := w' |}
      | (inr (Broadcasted hash), w') =>
          {| closure := closure s; phase := Finished; txHash := Some hash;
             errored := errored s;
             log := log s ++ [Emitted (TransactionHash hash); Resolved hash];
             monitor := monitor s; world := w' |}
      | (inl error, w') =>
          {| closure := closure s; phase := Finished; txHash := txHash s;
             errored := true; log := log s ++ [Rejected error];
             monitor := monitor s; world := w' |}
      end
  end.

(** Line 234: [async () => (txHash ? this._getConfirmations(txHash) : 0)]. *)
Definition fetchConfirmations (s : State) : M Z :=
  match txHash s with
  | Some hash =>
      if truthy hash then _getConfirmations env (this_testnet (closure s)) hash
      else ret 0
  | None => ret 0
  end.

(** Line 233: [() => errored]. *)
Definition isErrored (s : State) : bool := errored s.

(** Whether a transaction hash exists on the handle. *)
Definition hashExists (s : State) : bool :=
  match txHash s with
  | Some _ => true
  | None => false
  end.

(** Modelled from the spec: [subscribeToConfirmations] ([lib/confirmations])
    is not part of the sources.  The monitor starts only after a transaction
    hash exists: until then a tick of its interval does nothing.  From then
    on a tick stops the monitor for good when [isErrored()] holds; otherwise
    it queries [fetchConfirmations()] and emits a confirmation event with
    the count.  A failed query is swallowed and produces no event for that
    tick.  A tick runs without interleaving: tasks are scheduled
    cooperatively, and once a hash exists the async body has finished, so
    no other task writes the handle while a query is pending. *)
Definition tick (s : State) : State :=
  match monitor s with
  | Stopped => s
  | Active =>
      if isErrored s then
        {| closure := closure s; phase := phase s; txHash := txHash s;
           errored := errored s; log := log s; monitor := Stopped;
           world := world s |}
      else if hashExists s then
        match fetchConfirmations s (world s) with
        | (inr count, w') =>
            {| closure := closure s; phase := phase s; txHash := txHash s;
               errored := errored s;
               log := log s ++ [Emitted (Confirmation count)];
               monitor := monitor s; world := w' |}
        | (inl _, w') =>
            {| closure := closure s; phase := phase s; txHash := txHash s;
               errored := errored s; log := log s; monitor := monitor s;
               world := w' |}
        end
      else s
  end.

(** The monitor is cancelled from outside, or the process is torn down. *)
Definition teardown (s : State) : State :=
  {| closure := closure s; phase := phase s; txHash := txHash s;
     errored := errored s; log := log s; monitor := Stopped;
     world := world s |}.

(** What the event loop may run next. *)
Inductive Action : Type := Resume | Tick | Teardown.

Definition exec (a : Action) (s : State) : State :=
  match a with
  | Resume => resume s
  | Tick => tick s
  | Teardown => teardown s
  end.

Definition run (schedule : list Action) (s : State) : State :=
  fold_left (fun s a => exec a s) schedule s.

End Lifecycle.

Definition emptyWorld : World := {| clock := 0; calls := [] |}.

(** Lines 177-238: [sendSats] starts the async body, which suspends at its
    first [await]; subscribes the monitor; and returns the PromiEvent. *)
Definition sendSats (testnet : bool) (to : string) (valueIn : BigNumber.t)
           (asset : Asset) (options : option TxOptions) : State :=
  {| closure := {| this_testnet := testnet; to := to; valueIn := valueIn;
                   asset := asset; options := options |};
     phase := AwaitAddress;
     txHash := None;
     errored := false;
     log := [Subscribed];
     monitor := Active;
     world := emptyWorld |}.

(** Lines 164-175. *)
Definition send (testnet : bool) (to : string) (value : BigNumber.t)
           (asset : Asset) (options : option TxOptions) : State :=
  sendSats testnet to
           (BigNumber.times value
              (BigNumber.exponentiatedBy (BigNumber.ofZ 10) decimals))
           asset options.

(* ------------------------------------------------------------------ *)
(** ** Reading the log and the calls *)

Definition isHashEvent (o : Obs) : bool :=
  match o with
  | Emitted (TransactionHash _) => true
  | _ => false
  end.

Definition isConfirmationEvent (o : Obs) : bool :=
  match o with
  | Emitted (Confirmation _) => true
  | _ => false
  end.

Definition hashCount (l : list Obs) : nat :=
  List.length (filter isHashEvent l).

(** The outcome of the promise: the first [resolve] or [reject] wins. *)
Fixpoint settled (l : list Obs) : option (Error + string) :=
  match l with
  | [] => None
  | Resolved hash :: _ => Some (inr hash)
  | Rejected error :: _ => Some (inl error)
  | _ :: l' => settled l'
  end.

(** A provider query made by [_getConfirmations]. *)
Definition isConfirmationQuery (r : Request) : bool :=
  match r with
  | FetchUTXO _ _ _ => true
  | _ => false
  end.

Definition isBroadcast (r : Request) : bool :=
  match r with
  | BroadcastTransaction _ _ => true
  | _ => false
  end.

(** A request to the builder asks for [value]; other requests carry no
    value. *)
Definition buildsValue (value : BigNumber.t) (r : Request) : Prop :=
  match r with
  | BuildUTXO _ _ _ v _ _ => v = value
  | _ => True
  end.

(** [m] only adds calls, and every call it adds satisfies [P]. *)
Definition issues {A : Type} (P : Request -> Prop) (m : M A) : Prop :=
  forall w, exists added,
    calls (snd (m w)) = calls w ++ added /\ Forall P added.

(** The log while no hash exists: the subscription and nothing else. *)
Definition preHash (l : list Obs) : Prop := l = [Subscribed].

Definition confirmationsOnly (l : list Obs) : Prop :=
  Forall (fun o => isConfirmationEvent o = true) l.

(** The shape of every state a send can reach. *)
Definition Inv (s : State) : Prop :=
  match phase s with
  | Finished =>
      if errored s then
        txHash s = None /\
        exists pre error, preHash pre /\ log s = pre ++ [Rejected error]
      else
        exists hash pre post,
          txHash s = Some hash /\ preHash pre /\ confirmationsOnly post /\
          log s = pre ++ Emitted (TransactionHash hash) :: Resolved hash :: post
  | _ => txHash s = None /\ errored s = false /\ preHash (log s)
  end.

(** The hash event, at once followed by the resolution with that hash,
    occurs in [l]. *)
Definition hashPrecedes (l : list Obs) : Prop :=
  exists hash before after,
    l = before ++ Emitted (TransactionHash hash) :: Resolved hash :: after.

(** Every confirmation event in [l] comes after the hash event and the
    resolution. *)
Definition confirmationsFollowHash (l : list Obs) : Prop :=
  forall before count after,
    l = before ++ Emitted (Confirmation count) :: after ->
    hashPrecedes before.

(** A confirmation query asks for the hash recorded on the handle; without
    a recorded hash there is none. *)
Definition queryFor (recorded : option string) (r : Request) : Prop :=
  match r with
  | FetchUTXO _ hash _ => recorded = Some hash
  | _ => True
  end.

(** What the calls of a reachable state look like. *)
Definition CallsInv (s : State) : Prop :=
  Forall (buildsValue (valueIn (closure s))) (calls (world s)) /\
  Forall (queryFor (txHash s)) (calls (world s)).

(** How many [await]s of the async body have returned. *)
Definition stage (p : Phase) : nat :=
  match p with
  | AwaitAddress => 0
  | AwaitUTXOs _ => 1
  | AwaitBuild _ _ => 2
  | AwaitBroadcast _ => 3
  | Finished => 4
  end.

Definition countResumes (schedule : list Action) : nat :=
  List.length (filter (fun a => match a with Resume => true | _ => false end)
                 schedule).

(* ------------------------------------------------------------------ *)
(** ** Concrete collaborators, for the examples *)

Definition exampleBuilt : Built := {| toHex := "0100beef" |}.

(** Every collaborator answers; a confirmation query reports depth 2. *)
Definition happyEnv : Env :=
  {| privateKey_getAddress := fun _ => inr "LfromAddress"%string;
     Sochain_fetchUTXOs := fun _ _ _ _ => inr exampleUTXOs;
     Sochain_fetchUTXO := fun _ _ hash index =>
       inr {| utxoTxHash := hash; vOut := index; amount := 1;
              confirmations := 2 |};
     Sochain_broadcastTransaction := fun _ _ _ => inr "txid01"%string;
     BitgoUTXOLib_buildUTXO := fun _ _ _ _ _ _ _ => inr exampleBuilt |}.

(** The provider answers the UTXO query with [utxos]. *)
Definition providerEnv (utxos : list UTXO) : Env :=
  {| privateKey_getAddress := fun _ => inr "LfromAddress"%string;
     Sochain_fetchUTXOs := fun _ _ _ _ => inr utxos;
     Sochain_fetchUTXO := Sochain_fetchUTXO happyEnv;
     Sochain_broadcastTransaction := Sochain_broadcastTransaction happyEnv;
     BitgoUTXOLib_buildUTXO := BitgoUTXOLib_buildUTXO happyEnv |}.

Definition outage : Error := ProviderError "sochain unreachable".

(** The provider is down: no UTXOs, no broadcast. *)
Definition downEnv : Env :=
  {| privateKey_getAddress := fun _ => inr "LfromAddress"%string;
     Sochain_fetchUTXOs := fun _ _ _ _ => inl outage;
     Sochain_fetchUTXO := fun _ _ _ _ => inl outage;
     Sochain_broadcastTransaction := fun _ _ _ => inl outage;
     BitgoUTXOLib_buildUTXO := fun _ _ _ _ _ _ _ => inr exampleBuilt |}.

(** The broadcast endpoint fails on the calls numbered below [5]: the
    first two attempts of a send fail and the third succeeds. *)
Definition flakyEnv : Env :=
  {| privateKey_getAddress := privateKey_getAddress happyEnv;
     Sochain_fetchUTXOs := Sochain_fetchUTXOs happyEnv;
     Sochain_fetchUTXO := Sochain_fetchUTXO happyEnv;
     Sochain_broadcastTransaction := fun n _ _ =>
       if Nat.ltb n 5 then inl outage else inr "txid01"%string;
     BitgoUTXOLib_buildUTXO := BitgoUTXOLib_buildUTXO happyEnv |}.

(** Only the broadcast endpoint is down. *)
Definition noBroadcastEnv : Env :=
  {| privateKey_getAddress := privateKey_getAddress happyEnv;
     Sochain_fetchUTXOs := Sochain_fetchUTXOs happyEnv;
     Sochain_fetchUTXO := Sochain_fetchUTXO happyEnv;
     Sochain_broadcastTransaction := fun _ _ _ => inl outage;
     BitgoUTXOLib_buildUTXO := BitgoUTXOLib_buildUTXO happyEnv |}.

Definition exampleSend : State :=
  sendSats false "LtoAddress" (BigNumber.ofZ 150000000)
           (AssetString "LTC") None.

(* ------------------------------------------------------------------ *)
(** ** The rest of the handler *)

(** Lines 119-120: [this.testnet = network !== "mainnet"].  The comparison
    is that of JavaScript strings: exact and case-sensitive. *)
Definition constructorTestnet (network : string) : bool :=
  negb (String.eqb network "mainnet").

(** [LTCHandler.getUTXO(testnet, txHash, vOut)], lines 88-95. *)
Definition getUTXO (env : Env) (testnet : bool) (txHash : string) (index : Z)
  : M UTXO :=
  fallback (apiFallbacks_fetchUTXO env testnet txHash index).

(** [options.confirmations !== undefined ? options.confirmations : 0],
    lines 73-76. *)
Definition defaultConfirmations (confirmationsOpt : option Z) : Z :=
  match confirmationsOpt with
  | Some c => c
  | None => 0
  end.

(** The async body of [sendSats], lines 189-222, in one piece: what it
    returns is the hash the PromiEvent is resolved with, what it throws is
    the error the PromiEvent is rejected with. *)
Definition asyncBody (env : Env) (c : Closure) : M string :=
  fromAddress <- address env (asset c) ;;
  let changeAddress := fromAddress in
  fetched <- getUTXOs env (this_testnet c) fromAddress
                      (spreadConfirmations (options c)) ;;
  let utxos := spendCandidates fetched in
  built <- call (BuildUTXO (bitcoinNetwork (this_testnet c)) changeAddress
                           (to c) (valueIn c) utxos (options c))
                (fun n => BitgoUTXOLib_buildUTXO env n
                            (bitcoinNetwork (this_testnet c)) changeAddress
                            (to c) (valueIn c) utxos (options c)) ;;
  retryNTimes
    (fallback (apiFallbacks_broadcastTransaction env (this_testnet c)
                                                 (toHex built)))
    3.

(** The part of the async body that is still to run at a given [await]. *)
Definition remaining (env : Env) (c : Closure) (p : Phase) : M string :=
  match p with
  | AwaitAddress => asyncBody env c
  | AwaitUTXOs fromAddress =>
      fetched <- getUTXOs env (this_testnet c) fromAddress
                          (spreadConfirmations (options c)) ;;
      built <- call (BuildUTXO (bitcoinNetwork (this_testnet c)) fromAddress
                               (to c) (valueIn c) (spendCandidates fetched)
                               (options c))
                    (fun n => BitgoUTXOLib_buildUTXO env n
                                (bitcoinNetwork (this_testnet c)) fromAddress
                                (to c) (valueIn c) (spendCandidates fetched)
                                (options c)) ;;
      retryNTimes
        (fallback (apiFallbacks_broadcastTransaction env (this_testnet c)
                                                     (toHex built)))
        3
  | AwaitBuild fromAddress utxos =>
      built <- call (BuildUTXO (bitcoinNetwork (this_testnet c)) fromAddress
                               (to c) (valueIn c) utxos (options c))
                    (fun n => BitgoUTXOLib_buildUTXO env n
                                (bitcoinNetwork (this_testnet c)) fromAddress
                                (to c) (valueIn c) utxos (options c)) ;;
      retryNTimes
        (fallback (apiFallbacks_broadcastTransaction env (this_testnet c)
                                                     (toHex built)))
        3
  | AwaitBroadcast built =>
      retryNTimes
        (fallback (apiFallbacks_broadcastTransaction env (this_testnet c)
                                                     (toHex built)))
        3
  | Finished => throw (AggregatedError [])
  end.

(** The query [_getConfirmations] makes for [hash]: the first output, on the
    handler's chain. *)
Definition confirmationQuery (c : Closure) (hash : string) : Request :=
  FetchUTXO (sochainNetwork (this_testnet c)) hash 0.

Definition broadcastRequest (c : Closure) (built : Built) : Request :=
  BroadcastTransaction (sochainNetwork (this_testnet c)) (toHex built).

(** A log entry that is not a confirmation event with a count other than
    zero. *)
Definition zeroOrOther (o : Obs) : Prop :=
  match o with
  | Emitted (Confirmation count) => count = 0
  | _ => True
  end.

(** How a state of a send relates to the run of the async body from the
    empty world, which ends with [result] in the world [final]. *)
Definition Follows (env : Env) (result : Error + string) (final : World)
           (s : State) : Prop :=
  match phase s with
  | Finished =>
      settled (log s) = Some result /\
      match result with
      | inl _ => errored s = true /\ world s = final
      | inr hash =>
          errored s = false /\ txHash s = Some hash /\
          exists polls,
            calls (world s)
            = calls final ++ repeat (confirmationQuery (closure s) hash) polls
            /\ (truthy hash = false ->
                polls = 0%nat /\ Forall zeroOrOther (log s))
      end
  | p =>
      remaining env (closure s) p (world s) = (result, final) /\
      settled (log s) = None
  end.

Definition countCalls (p : Request -> bool) (w : World) : nat :=
  List.length (filter p (calls w)).

Definition isGetAddress (r : Request) : bool :=
  match r with
  | GetAddress => true
  | _ => false
  end.

Definition isFetchUTXOs (r : Request) : bool :=
  match r with
  | FetchUTXOs _ _ _ => true
  | _ => false
  end.

Definition isBuild (r : Request) : bool :=
  match r with
  | BuildUTXO _ _ _ _ _ _ => true
  | _ => false
  end.

(** A call that settles the PromiEvent. *)
Definition isSettle (o : Obs) : bool :=
  match o with
  | Resolved _ => true
  | Rejected _ => true
  | _ => false
  end.

Definition settleCount (l : list Obs) : nat := List.length (filter isSettle l).

(** The broadcast endpoint acknowledges with an empty hash. *)
Definition emptyHashEnv : Env :=
  {| privateKey_getAddress := privateKey_getAddress happyEnv;
     Sochain_fetchUTXOs := Sochain_fetchUTXOs happyEnv;
     Sochain_fetchUTXO := Sochain_fetchUTXO happyEnv;
     Sochain_broadcastTransaction := fun _ _ _ => inr ""%string;
     BitgoUTXOLib_buildUTXO := BitgoUTXOLib_buildUTXO happyEnv |}.

(** The builder refuses, as it does for insufficient funds. *)
Definition buildFailEnv : Env :=
  {| privateKey_getAddress := privateKey_getAddress happyEnv;
     Sochain_fetchUTXOs := Sochain_fetchUTXOs happyEnv;
     Sochain_fetchUTXO := Sochain_fetchUTXO happyEnv;
     Sochain_broadcastTransaction := Sochain_broadcastTransaction happyEnv;
     BitgoUTXOLib_buildUTXO :=
       fun _ _ _ _ _ _ _ => inl (BuildError "insufficient funds") |}.

Definition otherAddressOptions : option TxOptions :=
  Some {| opt_address := Some "Lother"%string; opt_confirmations := Some 6;
          opt_fee := None; opt_subtractFee := None |}.

(* ------------------------------------------------------------------ *)
(** * Spend selection *)

Section SortByFacts.

Context {A : Type} (key : A -> Z).

Let ascending (a b : A) : Prop := key a <= key b.

Lemma insert_permutation (x : A) (l : list A) :
  Permutation (x :: l) (Immutable.insert key x l).
Proof.
  induction l as [|y l IH]; simpl.
  - apply Permutation_refl.
  - destruct (key x <=? key y).
    + apply Permutation_refl.
    + apply perm_trans with (y :: x :: l).
      * apply perm_swap.
      * apply perm_skip, IH.
Qed.

Lemma sortBy_permutation (l : list A) :
  Permutation l (Immutable.sortBy key l).
Proof.
  induction l as [|x l IH]; simpl.
  - apply perm_nil.
  - apply perm_trans with (x :: Immutable.sortBy key l).
    + apply perm_skip, IH.
    + apply insert_permutation.
Qed.

Lemma insert_sorted (x : A) (l : list A) :
  StronglySorted ascending l ->
  StronglySorted ascending (Immutable.insert key x l).
Proof.
  induction 1 as [|y l Hsorted IH Hall]; simpl.
  - constructor; constructor.
  - destruct (Z.leb_spec (key x) (key y)) as [Hle|Hgt].
    + constructor.
      * constructor; assumption.
      * constructor; [exact Hle|].
        eapply Forall_impl; [|exact Hall].
        intros b Hb. unfold ascending in *. lia.
    + constructor; [exact IH|].
      apply Permutation_Forall with (x :: l).
      * apply insert_permutation.
      * constructor; [unfold ascending; lia | exact Hall].
Qed.

Lemma sortBy_sorted (l : list A) :
  StronglySorted ascending (Immutable.sortBy key l).
Proof.
  induction l as [|x l IH]; simpl.
  - constructor.
  - apply insert_sorted, IH.
Qed.

End SortByFacts.

Lemma StronglySorted_snoc {A : Type} (R : A -> A -> Prop) (l : list A) (x : A) :
  StronglySorted R l -> Forall (fun a => R a x) l ->
  StronglySorted R (l ++ [x]).
Proof.
  induction 1 as [|a l Hsorted IH Hall]; intros Hx; simpl.
  - constructor; constructor.
  - inversion Hx as [|? ? Hax Hlx]; subst.
    constructor.
    + apply IH, Hlx.
    + apply Forall_app; split; [exact Hall|].
      constructor; [exact Hax | constructor].
Qed.

Lemma StronglySorted_reverse {A : Type} (R : A -> A -> Prop) (l : list A) :
  StronglySorted R l -> StronglySorted (fun a b => R b a) (rev l).
Proof.
  induction 1 as [|a l Hsorted IH Hall]; simpl.
  - constructor.
  - apply StronglySorted_snoc; [exact IH|].
    apply Forall_rev, Hall.
Qed.

Lemma spendCandidates_permutation (fetched : list UTXO) :
  Permutation fetched (spendCandidates fetched).
Proof.
  unfold spendCandidates, Immutable.toArray, Immutable.reverse, Immutable.List.
  apply perm_trans with (Immutable.sortBy amount fetched).
  - apply sortBy_permutation.
  - apply Permutation_rev.
Qed.

Lemma spendCandidates_sorted (fetched : list UTXO) :
  descending (spendCandidates fetched).
Proof.
  unfold descending, spendCandidates, Immutable.toArray, Immutable.reverse,
    Immutable.List.
  apply (StronglySorted_reverse (fun a b => amount a <= amount b)).
  apply sortBy_sorted.
Qed.

(* ------------------------------------------------------------------ *)
(** * Balance arithmetic *)

Lemma plus_ofZ (a b : Z) :
  BigNumber.plus (BigNumber.ofZ a) (BigNumber.ofZ b) = BigNumber.ofZ (a + b).
Proof.
  unfold BigNumber.plus, BigNumber.ofZ, inject_Z, Qplus; simpl.
  f_equal. lia.
Qed.

Lemma fold_plus_total (utxos : list UTXO) (a : Z) :
  fold_left (fun sum utxo => BigNumber.plus sum (BigNumber.ofZ (amount utxo)))
            utxos (BigNumber.ofZ a)
  = BigNumber.ofZ (a + totalAmount utxos).
Proof.
  revert a. induction utxos as [|u utxos IH]; intros a; simpl.
  - f_equal. lia.
  - rewrite plus_ofZ, IH. f_equal. lia.
Qed.

Lemma sumAmounts_total (utxos : list UTXO) :
  sumAmounts utxos = BigNumber.ofZ (totalAmount utxos).
Proof.
  unfold sumAmounts. rewrite fold_plus_total. reflexivity.
Qed.

Lemma totalAmount_permutation (l l' : list UTXO) :
  Permutation l l' -> totalAmount l = totalAmount l'.
Proof.
  induction 1; simpl; lia.
Qed.

Lemma roundHalfUp_integer (k : Z) (d : positive) :
  BigNumber.roundHalfUp (k * Zpos d # d) = k.
Proof.
  unfold BigNumber.roundHalfUp; simpl Qnum; simpl Qden.
  assert (Hd : 0 < Zpos d) by lia.
  replace (2 * Z.abs (k * Zpos d) + Zpos d)
    with (Z.abs k * (2 * Zpos d) + Zpos d)
    by (rewrite Z.abs_mul; rewrite (Z.abs_eq (Zpos d)); lia).
  rewrite Z.div_add_l by lia.
  rewrite Z.div_small by lia.
  rewrite Z.sgn_mul. rewrite (Z.sgn_pos (Zpos d)) by lia.
  destruct k; simpl; lia.
Qed.

Lemma dividedBy_sats (n : Z) :
  BigNumber.dividedBy (BigNumber.ofZ n)
    (BigNumber.exponentiatedBy (BigNumber.ofZ 10) decimals)
  = (n * 1000000000000 # 100000000000000000000).
Proof.
  unfold BigNumber.dividedBy.
  change (BigNumber.exponentiatedBy (BigNumber.ofZ 10) decimals)
    with (100000000 # 1).
  change (inject_Z 10 ^ Z.of_nat BigNumber.DECIMAL_PLACES)%Q
    with (100000000000000000000 # 1).
  replace ((BigNumber.ofZ n / (100000000 # 1)) * (100000000000000000000 # 1))%Q
    with ((n * 1000000000000) * Zpos 100000000 # 100000000).
  - rewrite roundHalfUp_integer.
    unfold Qdiv, Qmult, Qinv, inject_Z; simpl. f_equal. lia.
  - unfold Qdiv, Qmult, Qinv, BigNumber.ofZ, inject_Z; simpl. f_equal. lia.
Qed.

(** C5. The candidates handed to the builder are the fetched UTXOs sorted by
    amount, largest first: [spendCandidates] permutes the fetched list into
    non-increasing order of amount, the example amounts come out as
    [1000000000, 500000000, 300000000, 100000000], and when the provider
    answers the UTXO query with [fetched] the request that the send then
    makes to the builder carries [spendCandidates fetched]. *)
Theorem sendSats_spend_candidates :
  (forall fetched,
      Permutation fetched (spendCandidates fetched) /\
      descending (spendCandidates fetched)) /\
  map amount (spendCandidates exampleUTXOs)
  = [1000000000; 500000000; 300000000; 100000000] /\
  (forall env s fromAddress fetched w',
      phase s = AwaitUTXOs fromAddress ->
      getUTXOs env (this_testnet (closure s)) fromAddress
               (spreadConfirmations (options (closure s))) (world s)
      = (inr fetched, w') ->
      phase (resume env s) = AwaitBuild fromAddress (spendCandidates fetched) /\
      calls (world (resume env (resume env s)))
      = calls w' ++
        [BuildUTXO (bitcoinNetwork (this_testnet (closure s))) fromAddress
                   (to (closure s)) (valueIn (closure s))
                   (spendCandidates fetched) (options (closure s))]).
Proof.
  split; [|split].
  - intros fetched. split.
    + apply spendCandidates_permutation.
    + apply spendCandidates_sorted.
  - reflexivity.
  - intros env s fromAddress fetched w' Hphase Hfetch.
    assert (Hstep : resume env s =
                    {| closure := closure s;
                       phase := AwaitBuild fromAddress (spendCandidates fetched);
                       txHash := txHash s; errored := errored s; log := log s;
                       monitor := monitor s; world := w' |}).
    { unfold resume. rewrite Hphase. unfold awaited, bind.
      rewrite Hfetch. reflexivity. }
    rewrite Hstep. split; [reflexivity|].
    unfold resume; simpl. unfold bind, call.
    destruct (BitgoUTXOLib_buildUTXO env (clock w') _ _ _ _ _ _);
      reflexivity.
Qed.

Lemma sendSats_spend_candidates_witness :
  let s := run happyEnv [Resume] exampleSend in
  phase (resume happyEnv s)
  = AwaitBuild "LfromAddress" (spendCandidates exampleUTXOs) /\
  calls (world (resume happyEnv (resume happyEnv s)))
  = [GetAddress; FetchUTXOs "LTC" "LfromAddress" 0] ++
    [BuildUTXO litecoin "LfromAddress" "LtoAddress" (BigNumber.ofZ 150000000)
               (spendCandidates exampleUTXOs) None].
Proof.
  exact (proj2 (proj2 sendSats_spend_candidates) happyEnv
           (run happyEnv [Resume] exampleSend) "LfromAddress"%string
           exampleUTXOs
           {| clock := 2;
              calls := [GetAddress; FetchUTXOs "LTC" "LfromAddress" 0] |}
           eq_refl eq_refl).
Defined.

(** C6. Whatever list of UTXOs the provider returns, [getBalanceInSats]
    returns the integer sum of their amounts and [getBalance] returns that
    sum divided by 10^8 exactly: the rounding of [dividedBy] loses nothing,
    and multiplying the balance back by 10^8 gives the integer sum. *)
Theorem getBalance_exact :
  forall env testnet asset options w utxos w',
    balanceUTXOs env testnet asset options w = (inr utxos, w') ->
    getBalanceInSats env testnet asset options w
    = (inr (BigNumber.ofZ (totalAmount utxos)), w') /\
    exists balance,
      getBalance env testnet asset options w = (inr balance, w') /\
      (balance == inject_Z (totalAmount utxos) / inject_Z (10 ^ 8))%Q /\
      (BigNumber.times balance (BigNumber.ofZ (10 ^ 8))
       == inject_Z (totalAmount utxos))%Q.
Proof.
  intros env testnet asset options w utxos w' Hfetch.
  assert (Hsats : getBalanceInSats env testnet asset options w
                  = (inr (BigNumber.ofZ (totalAmount utxos)), w')).
  { unfold getBalanceInSats, bind. rewrite Hfetch. unfold ret.
    rewrite sumAmounts_total. reflexivity. }
  split; [exact Hsats|].
  exists (totalAmount utxos * 1000000000000 # 100000000000000000000).
  split; [|split].
  - unfold getBalance, bind. rewrite Hsats. unfold ret.
    rewrite dividedBy_sats. reflexivity.
  - unfold Qeq, Qdiv, Qmult, Qinv, inject_Z; simpl. lia.
  - unfold Qeq, BigNumber.times, BigNumber.ofZ, Qmult, inject_Z; simpl. lia.
Qed.

Lemma getBalance_exact_witness :
  balanceUTXOs happyEnv false (AssetString "LTC") None emptyWorld
  = (inr exampleUTXOs,
     {| clock := 2; calls := [GetAddress; FetchUTXOs "LTC" "LfromAddress" 0] |})
  /\
  getBalanceInSats happyEnv false (AssetString "LTC") None emptyWorld
  = (inr (BigNumber.ofZ (totalAmount exampleUTXOs)),
     {| clock := 2; calls := [GetAddress; FetchUTXOs "LTC" "LfromAddress" 0] |}).
Proof.
  split; [reflexivity|].
  exact (proj1 (getBalance_exact happyEnv false (AssetString "LTC") None
                  emptyWorld exampleUTXOs
                  {| clock := 2;
                     calls := [GetAddress; FetchUTXOs "LTC" "LfromAddress" 0] |}
                  eq_refl)).
Defined.

Lemma totalAmount_sum (utxos : list UTXO) :
  totalAmount utxos = fold_right Z.add 0 (map amount utxos).
Proof.
  induction utxos as [|u utxos IH]; simpl; [reflexivity|].
  rewrite IH. reflexivity.
Qed.

(** C7. [getBalanceInSats] returns the sum of the amounts of the UTXOs the
    provider returned, as an integer, and so does not depend on their
    order: two runs whose providers return permutations of one list return
    the same total, namely that sum, and when the provider returns the
    example amounts in any order the result is 1900000000. *)
Theorem getBalanceInSats_order_independent :
  (forall env1 env2 testnet asset options w1 w2 l1 l2 w1' w2',
      balanceUTXOs env1 testnet asset options w1 = (inr l1, w1') ->
      balanceUTXOs env2 testnet asset options w2 = (inr l2, w2') ->
      Permutation l1 l2 ->
      getBalanceInSats env1 testnet asset options w1
      = (inr (fold_right Z.add 0 (map amount l1) # 1), w1') /\
      getBalanceInSats env2 testnet asset options w2
      = (inr (fold_right Z.add 0 (map amount l1) # 1), w2')) /\
  (forall env testnet asset options w l w',
      balanceUTXOs env testnet asset options w = (inr l, w') ->
      Permutation exampleUTXOs l ->
      getBalanceInSats env testnet asset options w
      = (inr (1900000000 # 1), w')).
Proof.
  assert (Hrun : forall env testnet asset options w l w',
             balanceUTXOs env testnet asset options w = (inr l, w') ->
             getBalanceInSats env testnet asset options w
             = (inr (fold_right Z.add 0 (map amount l) # 1), w')).
  { intros env testnet asset options w l w' H.
    unfold getBalanceInSats, bind. rewrite H. unfold ret.
    rewrite sumAmounts_total, totalAmount_sum. reflexivity. }
  split.
  - intros env1 env2 testnet asset options w1 w2 l1 l2 w1' w2' H1 H2 Hperm.
    split; [apply Hrun, H1|].
    rewrite (Hrun _ _ _ _ _ _ _ H2).
    rewrite <- !totalAmount_sum.
    rewrite (totalAmount_permutation l1 l2 Hperm). reflexivity.
  - intros env testnet asset options w l w' H Hperm.
    rewrite (Hrun _ _ _ _ _ _ _ H).
    rewrite <- totalAmount_sum.
    rewrite <- (totalAmount_permutation _ _ Hperm). reflexivity.
Qed.

Lemma getBalanceInSats_order_independent_witness :
  Permutation exampleUTXOs (rev exampleUTXOs) /\
  getBalanceInSats (providerEnv exampleUTXOs) false (AssetString "LTC")
                   None emptyWorld
  = (inr (1900000000 # 1),
     {| clock := 2; calls := [GetAddress; FetchUTXOs "LTC" "LfromAddress" 0] |})
  /\
  getBalanceInSats (providerEnv (rev exampleUTXOs)) false (AssetString "LTC")
                   None emptyWorld
  = (inr (1900000000 # 1),
     {| clock := 2; calls := [GetAddress; FetchUTXOs "LTC" "LfromAddress" 0] |}).
Proof.
  split; [apply Permutation_rev|]. split.
  - exact (proj1 (proj1 getBalanceInSats_order_independent
                    (providerEnv exampleUTXOs) (providerEnv (rev exampleUTXOs))
                    false (AssetString "LTC") None emptyWorld emptyWorld
                    exampleUTXOs (rev exampleUTXOs)
                    {| clock := 2;
                       calls := [GetAddress;
                                 FetchUTXOs "LTC" "LfromAddress" 0] |}
                    {| clock := 2;
                       calls := [GetAddress;
                                 FetchUTXOs "LTC" "LfromAddress" 0] |}
                    eq_refl eq_refl (Permutation_rev exampleUTXOs))).
  - exact (proj2 getBalanceInSats_order_independent
             (providerEnv (rev exampleUTXOs)) false (AssetString "LTC") None
             emptyWorld (rev exampleUTXOs)
             {| clock := 2;
                calls := [GetAddress; FetchUTXOs "LTC" "LfromAddress" 0] |}
             eq_refl (Permutation_rev exampleUTXOs)).
Defined.

(* ------------------------------------------------------------------ *)
(** * Asset names *)

Lemma indexOf_names (u : string) :
  negb (indexOf ["LTC"; "LITECOIN"]%string u =? -1) = true
  <-> u = "LTC"%string \/ u = "LITECOIN"%string.
Proof.
  cbv [indexOf indexOfFrom].
  destruct (String.eqb_spec "LTC" u) as [E1|N1].
  - split; [intros _; left; symmetry; exact E1 | reflexivity].
  - destruct (String.eqb_spec "LITECOIN" u) as [E2|N2].
    + split; [intros _; right; symmetry; exact E2 | reflexivity].
    + split; [discriminate|].
      intros [E|E]; exfalso; [apply N1 | apply N2]; symmetry; exact E.
Qed.

(** C10. [handlesAsset] never throws; it returns [true] exactly when the
    asset is a string whose upper-cased form is LTC or LITECOIN, and
    [false] for every value that is not a string and for every other
    string, such as ltc2 and BTC. *)
Theorem handlesAsset_spec :
  forall toUpperCase : string -> string,
    (forall s, isASCII s = true -> toUpperCase s = asciiUpper s) ->
    (forall asset,
        exists b,
          handlesAsset toUpperCase asset = inr b /\
          (b = true <->
           exists s, asset = AssetString s /\
                     (toUpperCase s = "LTC"%string \/
                      toUpperCase s = "LITECOIN"%string))) /\
    (forall asset, (forall s, asset <> AssetString s) ->
                   handlesAsset toUpperCase asset = inr false) /\
    handlesAsset toUpperCase (AssetString "ltc2") = inr false /\
    handlesAsset toUpperCase (AssetString "BTC") = inr false /\
    handlesAsset toUpperCase (AssetString "ltc") = inr true /\
    handlesAsset toUpperCase (AssetString "Litecoin") = inr true.
Proof.
  intros toUpperCase Hascii.
  assert (Hstr : forall s,
             handlesAsset toUpperCase (AssetString s)
             = inr (negb (indexOf ["LTC"; "LITECOIN"]%string (toUpperCase s)
                          =? -1))) by reflexivity.
  split; [|split].
  - intros a. destruct a as [s| | | | |];
      try (exists false; split; [reflexivity|];
           split; [discriminate | intros [s [E _]]; discriminate]).
    exists (negb (indexOf ["LTC"; "LITECOIN"]%string (toUpperCase s) =? -1)).
    split; [apply Hstr|].
    rewrite indexOf_names. split.
    + intros H. exists s. split; [reflexivity | exact H].
    + intros [s' [E H]]. injection E as ->. exact H.
  - intros a Hns. destruct a; try reflexivity.
    exfalso. eapply Hns. reflexivity.
  - rewrite !Hstr. rewrite !Hascii by reflexivity. repeat split.
Qed.

Lemma handlesAsset_spec_witness :
  handlesAsset asciiUpper (AssetString "ltc2") = inr false /\
  handlesAsset asciiUpper (AssetObject [("type", "ERC20")]%string) = inr false.
Proof.
  pose proof (handlesAsset_spec asciiUpper (fun s _ => eq_refl)) as H.
  split.
  - exact (proj1 (proj2 (proj2 H))).
  - apply (proj1 (proj2 H)). intros s. discriminate.
Defined.

(* ------------------------------------------------------------------ *)
(** * Calls made by the asynchronous code *)

Section Issues.

Context {A : Type} (P : Request -> Prop).

Lemma issues_ret (a : A) : issues P (ret a).
Proof.
  intros w. exists []. simpl. rewrite app_nil_r. split; [reflexivity|constructor].
Qed.

Lemma issues_throw (e : Error) : issues P (@throw A e).
Proof.
  intros w. exists []. simpl. rewrite app_nil_r. split; [reflexivity|constructor].
Qed.

Lemma issues_call (req : Request) (answer : nat -> Error + A) :
  P req -> issues P (call req answer).
Proof.
  intros Hreq w. exists [req]. simpl. split; [reflexivity|].
  constructor; [exact Hreq | constructor].
Qed.

Lemma issues_bind {B : Type} (m : M B) (k : B -> M A) :
  issues P m -> (forall b, issues P (k b)) -> issues P (bind m k).
Proof.
  intros Hm Hk w. unfold bind.
  destruct (Hm w) as [l1 [E1 F1]].
  destruct (m w) as [[e|b] w1]; simpl in E1.
  - exists l1. simpl. split; assumption.
  - destruct (Hk b w1) as [l2 [E2 F2]].
    exists (l1 ++ l2). rewrite E2, E1, app_assoc. split; [reflexivity|].
    apply Forall_app; split; assumption.
Qed.

Lemma issues_fallbackFrom (endpoints : list (M A)) :
  Forall (issues P) endpoints ->
  forall failures, issues P (fallbackFrom failures endpoints).
Proof.
  induction 1 as [|endpoint rest Hep Hrest IH]; intros failures; simpl.
  - apply issues_throw.
  - intros w.
    destruct (Hep w) as [l1 [E1 F1]].
    destruct (endpoint w) as [[e|a] w1]; simpl in E1.
    + destruct (IH (failures ++ [e]) w1) as [l2 [E2 F2]].
      exists (l1 ++ l2). rewrite E2, E1, app_assoc. split; [reflexivity|].
      apply Forall_app; split; assumption.
    + exists l1. simpl. split; assumption.
Qed.

Lemma issues_retryFrom (operation : M A) :
  issues P operation ->
  forall attempts last, issues P (retryFrom last operation attempts).
Proof.
  intros Hop. induction attempts as [|attempts IH]; intros last; simpl.
  - apply issues_throw.
  - intros w.
    destruct (Hop w) as [l1 [E1 F1]].
    destruct (operation w) as [[e|a] w1]; simpl in E1.
    + destruct (IH e w1) as [l2 [E2 F2]].
      exists (l1 ++ l2). rewrite E2, E1, app_assoc. split; [reflexivity|].
      apply Forall_app; split; assumption.
    + exists l1. simpl. split; assumption.
Qed.

End Issues.

Lemma awaited_issues (env : Env) (c : Closure) (p : Phase) :
  issues (fun r => isConfirmationQuery r = false /\ buildsValue (valueIn c) r)
         (awaited env c p).
Proof.
  destruct p; simpl.
  - apply issues_bind; [|intros; apply issues_ret].
    apply issues_call. split; reflexivity.
  - apply issues_bind; [|intros; apply issues_ret].
    apply issues_fallbackFrom. constructor; [|constructor].
    apply issues_call. split; reflexivity.
  - apply issues_bind; [|intros; apply issues_ret].
    apply issues_call. split; reflexivity.
  - apply issues_bind; [|intros; apply issues_ret].
    apply issues_retryFrom. apply issues_fallbackFrom.
    constructor; [|constructor].
    apply issues_call. split; reflexivity.
  - apply issues_ret.
Qed.

Lemma fetchConfirmations_unset (env : Env) (s : State) (w : World) :
  txHash s = None -> fetchConfirmations env s w = (inr 0, w).
Proof.
  intros H. unfold fetchConfirmations. rewrite H. reflexivity.
Qed.

Lemma fetchConfirmations_issues (env : Env) (s : State) :
  issues (fun r => buildsValue (valueIn (closure s)) r /\
                   queryFor (txHash s) r)
         (fetchConfirmations env s).
Proof.
  unfold fetchConfirmations.
  destruct (txHash s) as [hash|]; [|apply issues_ret].
  destruct (truthy hash); [|apply issues_ret].
  apply issues_bind; [|intros; apply issues_ret].
  apply issues_fallbackFrom. constructor; [|constructor].
  apply issues_call. split; reflexivity.
Qed.

(* ------------------------------------------------------------------ *)
(** * The shape of reachable states *)

Lemma Phase_finished_dec (p : Phase) : {p = Finished} + {p <> Finished}.
Proof.
  destruct p; (left; reflexivity) || (right; discriminate).
Qed.

Lemma resume_unfold (env : Env) (s : State) :
  phase s <> Finished ->
  resume env s =
  match awaited env (closure s) (phase s) (world s) with
  | (inr (Continue next), w') =>
      {| closure := closure s; phase := next; txHash := txHash s;
         errored := errored s; log := log s; monitor := monitor s;
         world := w' |}
  | (inr (Broadcasted hash), w') =>
      {| closure := closure s; phase := Finished; txHash := Some hash;
         errored := errored s;
         log := log s ++ [Emitted (TransactionHash hash); Resolved hash];
         monitor := monitor s; world := w' |}
  | (inl error, w') =>
      {| closure := closure s; phase := Finished; txHash := txHash s;
         errored := true; log := log s ++ [Rejected error];
         monitor := monitor s; world := w' |}
  end.
Proof.
  intros Hp. unfold resume. destruct (phase s); try reflexivity.
  exfalso. apply Hp. reflexivity.
Qed.

Lemma awaited_continue (env : Env) (c : Closure) (p next : Phase) (w w' : World) :
  p <> Finished ->
  awaited env c p w = (inr (Continue next), w') ->
  stage next = S (stage p) /\ next <> Finished.
Proof.
  intros Hp H.
  destruct p; simpl in H; unfold bind in H;
    try match type of H with
        | context [match ?m w with _ => _ end] =>
            destruct (m w) as [[?|?] ?]
        end;
    try (inversion H; subst; split; [reflexivity | discriminate]);
    try discriminate.
  exfalso. apply Hp. reflexivity.
Qed.

Lemma preHash_quiet (l : list Obs) :
  preHash l -> settled l = None /\ hashCount l = 0%nat.
Proof.
  intros ->. split; reflexivity.
Qed.

Lemma preHash_confirmation (l before after : list Obs) (count : Z) :
  preHash l -> l = before ++ Emitted (Confirmation count) :: after -> False.
Proof.
  intros -> E.
  destruct before as [|o [|o' before]]; discriminate.
Qed.

Lemma Inv_sendSats testnet to valueIn asset options :
  Inv (sendSats testnet to valueIn asset options).
Proof.
  unfold Inv; simpl. repeat split.
Qed.

Lemma Inv_resume (env : Env) (s : State) : Inv s -> Inv (resume env s).
Proof.
  intros HI.
  destruct (Phase_finished_dec (phase s)) as [Hf|Hnf].
  - unfold resume. rewrite Hf. exact HI.
  - rewrite (resume_unfold env s Hnf).
    assert (Hpre : txHash s = None /\ errored s = false /\ preHash (log s)).
    { unfold Inv in HI. destruct (phase s); try exact HI.
      exfalso. apply Hnf. reflexivity. }
    destruct Hpre as [Ht [He Hl]].
    destruct (awaited env (closure s) (phase s) (world s))
      as [[error|[next|hash]] w'] eqn:Ha.
    + unfold Inv; simpl. split; [exact Ht|].
      exists (log s), error. split; [exact Hl | reflexivity].
    + destruct (awaited_continue env _ _ _ _ _ Hnf Ha) as [_ Hn].
      unfold Inv; simpl.
      destruct next; try (repeat split; assumption).
      exfalso. apply Hn. reflexivity.
    + unfold Inv; simpl. rewrite He.
      exists hash, (log s), [].
      repeat split; [exact Hl | constructor].
Qed.

Lemma Inv_tick (env : Env) (s : State) : Inv s -> Inv (tick env s).
Proof.
  intros HI. unfold tick.
  destruct (monitor s); [|exact HI].
  unfold isErrored, hashExists.
  destruct (errored s) eqn:He.
  - unfold Inv in *; simpl. rewrite He in *. exact HI.
  - destruct (txHash s) as [recorded|] eqn:Ht; [|exact HI].
    (* a hash is recorded: the send has finished *)
    assert (Hfin : phase s = Finished /\
                   exists hash pre post,
                     txHash s = Some hash /\ preHash pre /\
                     confirmationsOnly post /\
                     log s = pre ++ Emitted (TransactionHash hash)
                                 :: Resolved hash :: post).
    { unfold Inv in HI. rewrite He in HI.
      destruct (phase s);
        try (destruct HI as [HN _]; rewrite Ht in HN; discriminate).
      split; [reflexivity | exact HI]. }
    destruct Hfin as [Hp [hash [pre [post [E1 [Hpre [Hpost El]]]]]]].
    rewrite Ht in E1. injection E1 as <-.
    destruct (fetchConfirmations env s (world s)) as [[e|count] w'];
      unfold Inv; simpl; rewrite Hp, ?He.
    + exists recorded, pre, post. repeat split; assumption.
    + exists recorded, pre, (post ++ [Emitted (Confirmation count)]).
      repeat split; try assumption.
      * apply Forall_app; split; [exact Hpost|].
        constructor; [reflexivity | constructor].
      * rewrite El, <- app_assoc. reflexivity.
Qed.

Lemma Inv_exec (env : Env) (a : Action) (s : State) :
  Inv s -> Inv (exec env a s).
Proof.
  destruct a; simpl.
  - apply Inv_resume.
  - apply Inv_tick.
  - intros H. exact H.
Qed.

Lemma Inv_pending (s : State) :
  Inv s -> phase s <> Finished ->
  txHash s = None /\ errored s = false /\ preHash (log s).
Proof.
  unfold Inv. intros HI Hnf.
  destruct (phase s); try exact HI.
  exfalso. apply Hnf. reflexivity.
Qed.

Lemma queryFor_other (recorded : option string) (r : Request) :
  isConfirmationQuery r = false -> queryFor recorded r.
Proof.
  destruct r; simpl; intros H; try exact I. discriminate.
Qed.

Lemma queryFor_unset (recorded : option string) (r : Request) :
  queryFor None r -> queryFor recorded r.
Proof.
  destruct r; simpl; intros H; try exact I. discriminate.
Qed.

Lemma CallsInv_sendSats testnet to valueIn asset options :
  CallsInv (sendSats testnet to valueIn asset options).
Proof.
  split; constructor.
Qed.

Lemma CallsInv_resume (env : Env) (s : State) :
  Inv s -> CallsInv s -> CallsInv (resume env s).
Proof.
  intros HI [Hb Hq].
  destruct (Phase_finished_dec (phase s)) as [Hf|Hnf].
  - unfold resume. rewrite Hf. split; assumption.
  - rewrite (resume_unfold env s Hnf).
    destruct (Inv_pending s HI Hnf) as [Ht _].
    rewrite Ht in Hq.
    destruct (awaited_issues env (closure s) (phase s) (world s))
      as [added [Ec Fa]].
    assert (Fb : Forall (buildsValue (valueIn (closure s))) added).
    { eapply Forall_impl; [|exact Fa]. intros r [_ H]. exact H. }
    assert (Fq : forall recorded, Forall (queryFor recorded) added).
    { intros recorded. eapply Forall_impl; [|exact Fa].
      intros r [H _]. apply queryFor_other, H. }
    assert (Hq' : forall recorded,
               Forall (queryFor recorded) (calls (world s))).
    { intros recorded. eapply Forall_impl; [|exact Hq].
      intros r. apply queryFor_unset. }
    destruct (awaited env (closure s) (phase s) (world s))
      as [[error|[next|hash]] w']; simpl in Ec;
      unfold CallsInv; simpl; rewrite Ec;
      split; apply Forall_app; split; auto.
Qed.

Lemma CallsInv_tick (env : Env) (s : State) :
  CallsInv s -> CallsInv (tick env s).
Proof.
  intros [Hb Hq]. unfold tick.
  destruct (monitor s); [|split; assumption].
  destruct (isErrored s); [split; assumption|].
  destruct (hashExists s); [|split; assumption].
  destruct (fetchConfirmations_issues env s (world s)) as [added [Ec Fa]].
  assert (Fb : Forall (buildsValue (valueIn (closure s))) added).
  { eapply Forall_impl; [|exact Fa]. intros r [H _]. exact H. }
  assert (Fq : Forall (queryFor (txHash s)) added).
  { eapply Forall_impl; [|exact Fa]. intros r [_ H]. exact H. }
  destruct (fetchConfirmations env s (world s)) as [[e|count] w'];
    simpl in Ec; unfold CallsInv; simpl; rewrite Ec;
    split; apply Forall_app; split; assumption.
Qed.

Lemma reachable_exec (env : Env) (a : Action) (s : State) :
  Inv s /\ CallsInv s -> Inv (exec env a s) /\ CallsInv (exec env a s).
Proof.
  intros [HI HC]. split; [apply Inv_exec, HI|].
  destruct a; simpl.
  - apply CallsInv_resume; assumption.
  - apply CallsInv_tick, HC.
  - exact HC.
Qed.

Lemma reachable_run (env : Env) (schedule : list Action) (s : State) :
  Inv s /\ CallsInv s ->
  Inv (run env schedule s) /\ CallsInv (run env schedule s).
Proof.
  revert s. induction schedule as [|a schedule IH]; intros s H; simpl.
  - exact H.
  - apply IH, reachable_exec, H.
Qed.

Lemma reachable_sendSats env schedule testnet to valueIn asset options :
  let s := run env schedule (sendSats testnet to valueIn asset options) in
  Inv s /\ CallsInv s.
Proof.
  apply reachable_run. split.
  - apply Inv_sendSats.
  - apply CallsInv_sendSats.
Qed.

Lemma closure_exec (env : Env) (a : Action) (s : State) :
  closure (exec env a s) = closure s.
Proof.
  destruct a; simpl.
  - unfold resume.
    destruct (phase s); try reflexivity;
      match goal with
      | |- context [awaited ?e ?c ?p ?w] =>
          destruct (awaited e c p w) as [[?|[?|?]] ?]; reflexivity
      end.
  - unfold tick. destruct (monitor s); [|reflexivity].
    destruct (isErrored s); [reflexivity|].
    destruct (hashExists s); [|reflexivity].
    destruct (fetchConfirmations env s (world s)) as [[?|?] ?]; reflexivity.
  - reflexivity.
Qed.

Lemma closure_run (env : Env) (schedule : list Action) (s : State) :
  closure (run env schedule s) = closure s.
Proof.
  revert s. induction schedule as [|a schedule IH]; intros s; simpl.
  - reflexivity.
  - rewrite IH. apply closure_exec.
Qed.

(* ------------------------------------------------------------------ *)
(** * Progress of the async body *)

Lemma stage_bound (p : Phase) : (stage p <= 4)%nat.
Proof.
  destruct p; simpl; lia.
Qed.

Lemma stage_finished (p : Phase) : (4 <= stage p)%nat -> p = Finished.
Proof.
  destruct p; simpl; intros H; try lia. reflexivity.
Qed.

Lemma stage_resume (env : Env) (s : State) :
  (Nat.min 4 (S (stage (phase s))) <= stage (phase (resume env s)))%nat.
Proof.
  destruct (Phase_finished_dec (phase s)) as [Hf|Hnf].
  - unfold resume. rewrite Hf. cbn [phase stage]. rewrite Hf. cbn [stage]. lia.
  - rewrite (resume_unfold env s Hnf).
    pose proof (stage_bound (phase s)) as Hb.
    destruct (awaited env (closure s) (phase s) (world s))
      as [[error|[next|hash]] w'] eqn:Ha; cbn [phase stage]; try lia.
    destruct (awaited_continue env _ _ _ _ _ Hnf Ha) as [Hs _]. lia.
Qed.

Lemma phase_tick (env : Env) (s : State) : phase (tick env s) = phase s.
Proof.
  unfold tick. destruct (monitor s); [|reflexivity].
  destruct (isErrored s); [reflexivity|].
  destruct (hashExists s); [|reflexivity].
  destruct (fetchConfirmations env s (world s)) as [[?|?] ?]; reflexivity.
Qed.

Lemma stage_run (env : Env) (schedule : list Action) (s : State) :
  (Nat.min 4 (stage (phase s) + countResumes schedule)
   <= stage (phase (run env schedule s)))%nat.
Proof.
  revert s. induction schedule as [|a schedule IH]; intros s.
  - cbn [run fold_left countResumes filter List.length]. lia.
  - specialize (IH (exec env a s)).
    change (run env (a :: schedule) s) with (run env schedule (exec env a s)).
    destruct a; cbn [countResumes filter List.length exec] in *;
      fold (countResumes schedule) in *.
    + pose proof (stage_resume env s). lia.
    + rewrite phase_tick in IH. exact IH.
    + exact IH.
Qed.

Lemma finished_after_four (env : Env) (schedule : list Action) (s : State) :
  (4 <= countResumes schedule)%nat -> phase (run env schedule s) = Finished.
Proof.
  intros H. apply stage_finished.
  pose proof (stage_run env schedule s). lia.
Qed.

(** Once the send has failed nothing more happens on the PromiEvent. *)
Lemma failed_exec (env : Env) (a : Action) (s : State) :
  phase s = Finished -> errored s = true ->
  phase (exec env a s) = Finished /\ errored (exec env a s) = true /\
  log (exec env a s) = log s.
Proof.
  intros Hp He. destruct a; simpl.
  - unfold resume. rewrite Hp. auto.
  - unfold tick, isErrored. destruct (monitor s); rewrite ?He; simpl; auto.
  - auto.
Qed.

Lemma failed_run (env : Env) (schedule : list Action) (s : State) :
  phase s = Finished -> errored s = true ->
  errored (run env schedule s) = true /\ log (run env schedule s) = log s.
Proof.
  revert s. induction schedule as [|a schedule IH]; intros s Hp He; simpl.
  - auto.
  - destruct (failed_exec env a s Hp He) as [Hp' [He' Hl']].
    destruct (IH _ Hp' He') as [H1 H2]. rewrite H2, Hl'. auto.
Qed.

(* ------------------------------------------------------------------ *)
(** * Reading logs *)

Lemma split_at {A : Type} (x y : A) (a b l1 l2 : list A) :
  l1 ++ y :: l2 = a ++ x :: b ->
  (exists m, a = l1 ++ y :: m) \/
  (l1 = a /\ y = x /\ l2 = b) \/
  (exists m, l1 = a ++ x :: m /\ b = m ++ y :: l2).
Proof.
  revert a. induction l1 as [|z l1 IH]; intros a E.
  - destruct a as [|z a]; simpl in E.
    + injection E as -> ->. right. left. auto.
    + injection E as -> E. left. exists a. reflexivity.
  - destruct a as [|z' a]; simpl in E.
    + injection E as -> E. right. right. exists l1. auto.
    + injection E as -> E.
      destruct (IH a E) as [[m ->]|[[-> [-> ->]]|[m [-> ->]]]].
      * left. exists m. reflexivity.
      * right. left. auto.
      * right. right. exists m. auto.
Qed.

Lemma hashCount_app (l1 l2 : list Obs) :
  hashCount (l1 ++ l2) = (hashCount l1 + hashCount l2)%nat.
Proof.
  unfold hashCount. rewrite filter_app, length_app. reflexivity.
Qed.

Lemma settled_app (l1 l2 : list Obs) :
  settled l1 = None -> settled (l1 ++ l2) = settled l2.
Proof.
  induction l1 as [|o l1 IH]; simpl; intros H; [reflexivity|].
  destruct o; try discriminate; apply IH, H.
Qed.

Lemma confirmationsOnly_quiet (l : list Obs) :
  confirmationsOnly l -> settled l = None /\ hashCount l = 0%nat.
Proof.
  unfold hashCount.
  induction 1 as [|o l Ho Hl IH]; simpl; [auto|].
  destruct o as [|[h|n]| |]; try discriminate. simpl. exact IH.
Qed.

(** The log of a state reached by a send, by outcome. *)
Lemma log_shape (s : State) :
  Inv s ->
  (settled (log s) = None /\ preHash (log s) /\ txHash s = None /\
   errored s = false /\ phase s <> Finished) \/
  (exists pre error,
      log s = pre ++ [Rejected error] /\ preHash pre /\
      settled (log s) = Some (inl error) /\ errored s = true /\
      phase s = Finished) \/
  (exists pre hash post,
      log s = pre ++ Emitted (TransactionHash hash) :: Resolved hash :: post /\
      preHash pre /\ confirmationsOnly post /\
      settled (log s) = Some (inr hash) /\ errored s = false /\
      txHash s = Some hash /\ phase s = Finished).
Proof.
  intros HI.
  destruct (Phase_finished_dec (phase s)) as [Hf|Hnf].
  - unfold Inv in HI. rewrite Hf in HI. destruct (errored s) eqn:He.
    + destruct HI as [Ht [pre [error [Hpre El]]]].
      right. left. exists pre, error. repeat split; try assumption.
      rewrite El, settled_app by apply preHash_quiet, Hpre. reflexivity.
    + destruct HI as [hash [pre [post [Ht [Hpre [Hpost El]]]]]].
      right. right. exists pre, hash, post. repeat split; try assumption.
      rewrite El, settled_app by apply preHash_quiet, Hpre. reflexivity.
  - destruct (Inv_pending s HI Hnf) as [Ht [He Hl]].
    left. repeat split; try assumption. apply preHash_quiet, Hl.
Qed.

(* ------------------------------------------------------------------ *)
(** * The send lifecycle and the confirmation monitor *)

(** A send that succeeds, with ticks of the monitor before and after the
    broadcast. *)
Example successful_send :
  log (run happyEnv [Resume; Tick; Resume; Resume; Tick; Resume; Tick; Tick]
           exampleSend)
  = [Subscribed; Emitted (TransactionHash "txid01"); Resolved "txid01";
     Emitted (Confirmation 2); Emitted (Confirmation 2)].
Proof. reflexivity. Qed.

(** A send whose broadcast fails three times. *)
Example failed_broadcast :
  let s := run noBroadcastEnv [Resume; Tick; Resume; Resume; Resume; Tick; Tick]
               (sendSats true "LtoAddress" (BigNumber.ofZ 150000000)
                         (AssetString "LTC")
                         (Some {| opt_address := Some "Lother"%string;
                                  opt_confirmations := Some 6;
                                  opt_fee := None; opt_subtractFee := None |}))
  in
  log s = [Subscribed;
           Rejected (RetryExhaustedError (AggregatedError [outage]))] /\
  map (fun r => match r with
                | FetchUTXOs network from minConfirmations =>
                    Some (network, from, minConfirmations)
                | _ => None
                end)
      (calls (world s))
  = [None; Some ("LTCTEST", "LfromAddress", 6)%string; None; None; None; None]
  /\ monitor s = Stopped.
Proof. repeat split. Qed.

(** C1. In every send, each confirmation event comes after the hash event
    and the resolution of the result, which follows the hash event at once:
    no confirmation event precedes either of them.  Lines 213, 224 and 225
    run without suspension, so once a hash exists on the handle the log is
    the subscription, the hash event, the resolution, and then confirmation
    events only; and the monitor emits nothing before a hash exists. *)
Theorem confirmations_follow_hash :
  forall env testnet to valueIn asset options schedule,
    let s := run env schedule (sendSats testnet to valueIn asset options) in
    confirmationsFollowHash (log s) /\
    (forall hash,
        txHash s = Some hash ->
        exists after,
          log s = Subscribed :: Emitted (TransactionHash hash)
                             :: Resolved hash :: after /\
          confirmationsOnly after).
Proof.
  intros env testnet to valueIn asset options schedule s.
  destruct (reachable_sendSats env schedule testnet to valueIn asset options)
    as [HI _].
  fold s in HI.
  split.
  - intros before count after El.
    destruct (log_shape _ HI)
      as [[_ [Hpre _]]
         |[[pre [error [E [Hpre _]]]]
          |[pre [hash [post [E [Hpre _]]]]]]].
    + exfalso. eapply preHash_confirmation; eassumption.
    + rewrite El in E.
      destruct (split_at _ _ _ _ _ _ E) as [[m Em]|[[_ [Ex _]]|[m [_ Em]]]].
      * exfalso. eapply preHash_confirmation; eassumption.
      * discriminate.
      * destruct m; discriminate.
    + rewrite El in E.
      destruct (split_at _ _ _ _ _ _ E) as [[m Em]|[[_ [Ex _]]|[m [E1 Em]]]].
      * exfalso. eapply preHash_confirmation; eassumption.
      * discriminate.
      * destruct m as [|o m]; [discriminate|].
        injection Em as <- _.
        exists hash, pre, m. exact E1.
  - intros hash Ht.
    destruct (log_shape _ HI)
      as [[_ [_ [Hn _]]]
         |[[pre [error [_ [_ [_ [He Hf]]]]]]
          |[pre [hash' [post [E [Hpre [Hpost [_ [_ [Ht' _]]]]]]]]]]].
    + rewrite Hn in Ht. discriminate.
    + exfalso. unfold Inv in HI. rewrite Hf, He in HI.
      destruct HI as [Hn _]. rewrite Hn in Ht. discriminate.
    + rewrite Ht' in Ht. injection Ht as ->.
      exists post. rewrite E, Hpre. split; [reflexivity | exact Hpost].
Qed.

Lemma confirmations_follow_hash_witness :
  log (run happyEnv [Resume; Tick; Resume; Resume; Resume; Tick] exampleSend)
  = [Subscribed; Emitted (TransactionHash "txid01"); Resolved "txid01"]
    ++ Emitted (Confirmation 2) :: [] /\
  hashPrecedes
    [Subscribed; Emitted (TransactionHash "txid01"); Resolved "txid01"].
Proof.
  split; [reflexivity|].
  apply (proj1 (confirmations_follow_hash happyEnv false "LtoAddress"%string
                  (BigNumber.ofZ 150000000) (AssetString "LTC") None
                  [Resume; Tick; Resume; Resume; Resume; Tick])
               [Subscribed; Emitted (TransactionHash "txid01");
                Resolved "txid01"]
               2 []).
  reflexivity.
Defined.

(** C2, as stated, fails: when the provider is down the UTXO query fails,
    the send finishes rejected, and no hash event was emitted. *)
Lemma failed_send_emits_no_hash :
  phase (run downEnv [Resume; Resume] exampleSend) = Finished /\
  settled (log (run downEnv [Resume; Resume] exampleSend))
  = Some (inl (AggregatedError [outage])) /\
  hashCount (log (run downEnv [Resume; Resume] exampleSend)) <> 1%nat.
Proof.
  repeat split. discriminate.
Qed.

(** C2, amended.  No send emits more than one hash event.  A send whose
    broadcast succeeds emits exactly one, and the resolution with the same
    hash follows it at once.  A send that is rejected, or has not settled,
    has emitted none; after four resumptions every send has settled. *)
Theorem transactionHash_once :
  forall env testnet to valueIn asset options schedule,
    let s := run env schedule (sendSats testnet to valueIn asset options) in
    (hashCount (log s) <= 1)%nat /\
    (forall hash,
        settled (log s) = Some (inr hash) ->
        hashCount (log s) = 1%nat /\
        exists pre post,
          log s = pre ++ Emitted (TransactionHash hash) :: Resolved hash :: post
          /\ hashCount pre = 0%nat /\ settled pre = None
          /\ hashCount post = 0%nat) /\
    (forall hash w',
        phase s <> Finished ->
        awaited env (closure s) (phase s) (world s)
        = (inr (Broadcasted hash), w') ->
        hashCount (log s) = 0%nat /\
        log (resume env s)
        = log s ++ [Emitted (TransactionHash hash); Resolved hash] /\
        settled (log (resume env s)) = Some (inr hash)) /\
    (forall error,
        settled (log s) = Some (inl error) -> hashCount (log s) = 0%nat) /\
    (settled (log s) = None -> hashCount (log s) = 0%nat) /\
    ((4 <= countResumes schedule)%nat -> settled (log s) <> None).
Proof.
  intros env testnet to valueIn asset options schedule s.
  destruct (reachable_sendSats env schedule testnet to valueIn asset options)
    as [HI _].
  fold s in HI.
  assert (Hfail : forall pre error,
             preHash pre -> hashCount (pre ++ [Rejected error]) = 0%nat).
  { intros pre error Hpre. rewrite hashCount_app.
    destruct (preHash_quiet _ Hpre) as [_ ->]. reflexivity. }
  assert (Hok : forall pre hash post,
             preHash pre -> confirmationsOnly post ->
             hashCount (pre ++ Emitted (TransactionHash hash)
                            :: Resolved hash :: post) = 1%nat).
  { intros pre hash post Hpre Hpost. rewrite hashCount_app.
    destruct (preHash_quiet _ Hpre) as [_ ->].
    change (hashCount (Emitted (TransactionHash hash) :: Resolved hash :: post))
      with (S (hashCount post)).
    destruct (confirmationsOnly_quiet _ Hpost) as [_ ->]. reflexivity. }
  destruct (log_shape _ HI)
    as [[Hs [Hpre [Ht [He Hnf]]]]
       |[[pre [error [E [Hpre [Hs [He Hf]]]]]]
        |[pre [hash [post [E [Hpre [Hpost [Hs [He [Ht Hf]]]]]]]]]]].
  - (* not settled yet *)
    destruct (preHash_quiet _ Hpre) as [_ Hc].
    refine (conj _ (conj _ (conj _ (conj _ (conj _ _))))).
    + rewrite Hc. lia.
    + intros hash H. rewrite Hs in H. discriminate.
    + intros hash w' _ Ha. split; [exact Hc|].
      rewrite (resume_unfold env s Hnf), Ha. cbn [log]. split; [reflexivity|].
      rewrite settled_app by exact Hs. reflexivity.
    + intros error H. rewrite Hs in H. discriminate.
    + intros _. exact Hc.
    + intros H4 _. apply Hnf, finished_after_four, H4.
  - (* rejected *)
    refine (conj _ (conj _ (conj _ (conj _ (conj _ _))))).
    + rewrite E, Hfail by exact Hpre. lia.
    + intros hash H. rewrite Hs in H. discriminate.
    + intros hash w' Hnf. exfalso. apply Hnf, Hf.
    + intros error' _. rewrite E. apply Hfail, Hpre.
    + intros H. rewrite Hs in H. discriminate.
    + intros _ H. rewrite Hs in H. discriminate.
  - (* resolved *)
    refine (conj _ (conj _ (conj _ (conj _ (conj _ _))))).
    + rewrite E, Hok by assumption. lia.
    + intros hash' H. rewrite Hs in H. injection H as <-.
      split; [rewrite E; apply Hok; assumption|].
      exists pre, post.
      destruct (preHash_quiet _ Hpre) as [Hp1 Hp2].
      destruct (confirmationsOnly_quiet _ Hpost) as [_ Hq].
      auto.
    + intros hash' w' Hnf. exfalso. apply Hnf, Hf.
    + intros error H. rewrite Hs in H. discriminate.
    + intros H. rewrite Hs in H. discriminate.
    + intros _ H. rewrite Hs in H. discriminate.
Qed.

Lemma transactionHash_once_witness :
  settled (log (run happyEnv [Resume; Resume; Resume; Resume] exampleSend))
  = Some (inr "txid01"%string) /\
  hashCount (log (run happyEnv [Resume; Resume; Resume; Resume] exampleSend))
  = 1%nat.
Proof.
  split; [reflexivity|].
  apply (proj1 (proj2 (transactionHash_once happyEnv false "LtoAddress"%string
                         (BigNumber.ofZ 150000000) (AssetString "LTC") None
                         [Resume; Resume; Resume; Resume]))
               "txid01"%string).
  reflexivity.
Defined.

(** C3, as stated, fails: [sendSats] subscribes the monitor at line 231,
    before it returns, when the async body is suspended at its first [await]
    and no hash is recorded. *)
Lemma subscribed_before_hash :
  In Subscribed (log exampleSend) /\
  monitor exampleSend = Active /\
  phase exampleSend = AwaitAddress /\
  txHash exampleSend = None.
Proof.
  repeat split. left. reflexivity.
Qed.

(** C3, amended.  [sendSats] subscribes the monitor at once, before a hash
    is recorded.  What waits for the hash is the polling: while no hash is
    recorded no confirmation query has been made, a tick of the monitor
    emits nothing and calls no provider, and the fetch callback handed to
    the monitor returns [0] without calling a provider; every confirmation
    query a send makes asks for the hash recorded on the handle. *)
Theorem confirmation_queries_need_hash :
  forall env testnet to valueIn asset options,
    (In Subscribed (log (sendSats testnet to valueIn asset options)) /\
     monitor (sendSats testnet to valueIn asset options) = Active /\
     txHash (sendSats testnet to valueIn asset options) = None) /\
    forall schedule,
      let s := run env schedule (sendSats testnet to valueIn asset options) in
      Forall (queryFor (txHash s)) (calls (world s)) /\
      (txHash s = None ->
       Forall (fun r => isConfirmationQuery r = false) (calls (world s)) /\
       fetchConfirmations env s (world s) = (inr 0, world s) /\
       log (tick env s) = log s /\
       calls (world (tick env s)) = calls (world s)).
Proof.
  intros env testnet to valueIn asset options. split.
  - repeat split. left. reflexivity.
  - intros schedule s.
    destruct (reachable_sendSats env schedule testnet to valueIn asset options)
      as [_ [_ Hq]].
    fold s in Hq. split; [exact Hq|].
    intros Ht. split; [|split].
    + rewrite Ht in Hq. eapply Forall_impl; [|exact Hq].
      intros r. destruct r; simpl; intros H; try reflexivity. discriminate.
    + apply fetchConfirmations_unset, Ht.
    + unfold tick, hashExists. rewrite Ht.
      destruct (monitor s); [|auto].
      destruct (isErrored s); auto.
Qed.

Lemma confirmation_queries_need_hash_witness :
  txHash (run happyEnv [Resume; Tick; Resume] exampleSend) = None /\
  Forall (fun r => isConfirmationQuery r = false)
         (calls (world (run happyEnv [Resume; Tick; Resume] exampleSend))).
Proof.
  split; [reflexivity|].
  apply (proj2 (confirmation_queries_need_hash happyEnv false
                  "LtoAddress"%string (BigNumber.ofZ 150000000)
                  (AssetString "LTC") None)
               [Resume; Tick; Resume]).
  reflexivity.
Defined.

(** C4. When the step the async body is waiting for fails with [error], be
    it the address, the UTXO query, the build or the broadcast, the [catch]
    handler sets [errored] and rejects the result with that very error; from
    then on the flag stays set and nothing more is logged on the
    PromiEvent, in particular no confirmation event. *)
Theorem failure_rejects_and_silences :
  forall env testnet to valueIn asset options schedule error w',
    let s := run env schedule (sendSats testnet to valueIn asset options) in
    phase s <> Finished ->
    awaited env (closure s) (phase s) (world s) = (inl error, w') ->
    errored (resume env s) = true /\
    log (resume env s) = log s ++ [Rejected error] /\
    settled (log (resume env s)) = Some (inl error) /\
    monitor (tick env (resume env s)) = Stopped /\
    forall later,
      errored (run env later (resume env s)) = true /\
      log (run env later (resume env s)) = log (resume env s).
Proof.
  intros env testnet to valueIn asset options schedule error w' s Hnf Ha.
  destruct (reachable_sendSats env schedule testnet to valueIn asset options)
    as [HI _].
  fold s in HI.
  destruct (Inv_pending s HI Hnf) as [Ht [He Hl]].
  assert (Hr : resume env s =
               {| closure := closure s; phase := Finished; txHash := txHash s;
                  errored := true; log := log s ++ [Rejected error];
                  monitor := monitor s; world := w' |}).
  { rewrite (resume_unfold env s Hnf), Ha. reflexivity. }
  rewrite Hr. cbn [errored log].
  split; [reflexivity|]. split; [reflexivity|]. split; [|split].
  - rewrite settled_app by apply preHash_quiet, Hl. reflexivity.
  - unfold tick; simpl. destruct (monitor s); reflexivity.
  - intros later. apply failed_run; reflexivity.
Qed.

Lemma failure_rejects_and_silences_witness :
  let s := run downEnv [Resume; Tick] exampleSend in
  phase s <> Finished /\
  awaited downEnv (closure s) (phase s) (world s)
  = (inl (AggregatedError [outage]),
     {| clock := 2; calls := [GetAddress; FetchUTXOs "LTC" "LfromAddress" 0] |})
  /\
  errored (resume downEnv s) = true /\
  log (resume downEnv s)
  = [Subscribed; Rejected (AggregatedError [outage])]
  /\
  log (run downEnv [Tick; Resume; Tick] (resume downEnv s))
  = log (resume downEnv s).
Proof.
  pose proof (failure_rejects_and_silences downEnv false "LtoAddress"%string
                (BigNumber.ofZ 150000000) (AssetString "LTC") None
                [Resume; Tick] (AggregatedError [outage])
                {| clock := 2;
                   calls := [GetAddress; FetchUTXOs "LTC" "LfromAddress" 0] |}
                ltac:(discriminate) eq_refl) as H.
  split; [discriminate|]. split; [reflexivity|].
  split; [exact (proj1 H)|]. split; [exact (proj1 (proj2 H))|].
  exact (proj2 (proj2 (proj2 (proj2 (proj2 H))) [Tick; Resume; Tick])).
Defined.

(** One attempt of the broadcast: one call to the endpoint. *)
Lemma broadcast_attempt (env : Env) (testnet : bool) (hex : string) (w : World) :
  fallback (apiFallbacks_broadcastTransaction env testnet hex) w
  = (match Sochain_broadcastTransaction env (clock w) (sochainNetwork testnet)
                                        hex with
     | inl e => inl (AggregatedError [e])
     | inr hash => inr hash
     end,
     {| clock := S (clock w);
        calls := calls w ++ [BroadcastTransaction (sochainNetwork testnet) hex] |}).
Proof.
  unfold fallback, apiFallbacks_broadcastTransaction, fallbackFrom, call, throw.
  destruct (Sochain_broadcastTransaction env (clock w) (sochainNetwork testnet)
                                         hex); reflexivity.
Qed.

(** C9. A send that has reached the broadcast submits the serialized hex
    through [retryNTimes] applied to the [fallback] over the broadcast
    endpoints, with 3 attempts.  The step calls the broadcast endpoint
    between one and three times, each time with that hex, stopping at the
    first success, whose hash it returns; it fails only when three attempts
    in a row have failed. *)
Theorem broadcast_retries_fallback :
  forall env s built,
    phase s = AwaitBroadcast built ->
    let c := closure s in
    let w := world s in
    let request :=
      BroadcastTransaction (sochainNetwork (this_testnet c)) (toHex built) in
    let answer n :=
      Sochain_broadcastTransaction env n (sochainNetwork (this_testnet c))
                                   (toHex built) in
    awaited env c (AwaitBroadcast built)
    = (hash <- retryNTimes
                 (fallback (apiFallbacks_broadcastTransaction
                              env (this_testnet c) (toHex built)))
                 3 ;;
       ret (Broadcasted hash)) /\
    world (resume env s) = snd (awaited env c (AwaitBroadcast built) w) /\
    exists k,
      (1 <= k <= 3)%nat /\
      calls (world (resume env s)) = calls w ++ repeat request k /\
      (forall j, (j < k - 1)%nat -> exists e, answer (j + clock w)%nat = inl e) /\
      match fst (awaited env c (AwaitBroadcast built) w) with
      | inr (Broadcasted hash) => answer (k - 1 + clock w)%nat = inr hash
      | inr (Continue _) => False
      | inl error =>
          k = 3%nat /\
          exists e, answer (2 + clock w)%nat = inl e /\
                    error = RetryExhaustedError (AggregatedError [e])
      end.
Proof.
  intros env s built Hp c w request answer.
  split; [reflexivity|].
  assert (Hw : world (resume env s)
               = snd (awaited env c (AwaitBroadcast built) w)).
  { unfold resume. rewrite Hp. fold c w.
    destruct (awaited env c (AwaitBroadcast built) w)
      as [[error|[next|hash]] w']; reflexivity. }
  split; [exact Hw|]. rewrite Hw. clear Hw.
  cbn [awaited]. unfold bind, retryNTimes. cbn [retryFrom].
  rewrite broadcast_attempt. fold request. fold (answer (clock w)).
  destruct (answer (clock w)) as [e1|h1] eqn:A1.
  - rewrite broadcast_attempt. cbn [clock calls].
    fold request. fold (answer (S (clock w))).
    destruct (answer (S (clock w))) as [e2|h2] eqn:A2.
    + rewrite broadcast_attempt. cbn [clock calls].
      fold request. fold (answer (S (S (clock w)))).
      destruct (answer (S (S (clock w)))) as [e3|h3] eqn:A3.
      * exists 3%nat. cbn [fst snd calls throw]. repeat split; try lia.
        -- rewrite <- !app_assoc. reflexivity.
        -- intros j Hj. destruct j as [|[|j]]; [eauto | eauto | lia].
        -- exists e3. split; [exact A3 | reflexivity].
      * exists 3%nat. cbn [fst snd calls ret]. repeat split; try lia.
        -- rewrite <- !app_assoc. reflexivity.
        -- intros j Hj. destruct j as [|[|j]]; [eauto | eauto | lia].
        -- exact A3.
    + exists 2%nat. cbn [fst snd calls ret]. repeat split; try lia.
      * rewrite <- !app_assoc. reflexivity.
      * intros j Hj. destruct j as [|j]; [eauto | lia].
      * exact A2.
  - exists 1%nat. cbn [fst snd calls ret]. repeat split; try lia.
    exact A1.
Qed.

Lemma broadcast_retries_fallback_witness :
  let s := run flakyEnv [Resume; Resume; Resume] exampleSend in
  phase s = AwaitBroadcast exampleBuilt /\
  world (resume flakyEnv s)
  = snd (awaited flakyEnv (closure s) (AwaitBroadcast exampleBuilt) (world s))
  /\
  filter isBroadcast (calls (world (resume flakyEnv s)))
  = repeat (BroadcastTransaction "LTC" "0100beef") 3.
Proof.
  split; [reflexivity|]. split; [|reflexivity].
  exact (proj1 (proj2 (broadcast_retries_fallback flakyEnv
                         (run flakyEnv [Resume; Resume; Resume] exampleSend)
                         exampleBuilt eq_refl))).
Defined.

(* ------------------------------------------------------------------ *)
(** * The static getters and the constructor *)

Lemma getUTXOs_run (env : Env) (testnet : bool) (address : string)
      (confirmationsOpt : option Z) (w : World) :
  getUTXOs env testnet address confirmationsOpt w
  = (match Sochain_fetchUTXOs env (clock w) (sochainNetwork testnet) address
                              (defaultConfirmations confirmationsOpt) with
     | inr utxos => inr utxos
     | inl e => inl (AggregatedError [e])
     end,
     {| clock := S (clock w);
        calls := calls w ++
                 [FetchUTXOs (sochainNetwork testnet) address
                             (defaultConfirmations confirmationsOpt)] |}).
Proof.
  unfold getUTXOs, fallback, apiFallbacks_fetchUTXOs, fallbackFrom, call,
    throw, defaultConfirmations.
  destruct (Sochain_fetchUTXOs env (clock w) (sochainNetwork testnet) address
              (match confirmationsOpt with Some c => c | None => 0 end));
    reflexivity.
Qed.

Lemma getUTXO_run (env : Env) (testnet : bool) (hash : string) (index : Z)
      (w : World) :
  getUTXO env testnet hash index w
  = (match Sochain_fetchUTXO env (clock w) (sochainNetwork testnet) hash
                             index with
     | inr utxo => inr utxo
     | inl e => inl (AggregatedError [e])
     end,
     {| clock := S (clock w);
        calls := calls w ++ [FetchUTXO (sochainNetwork testnet) hash index] |}).
Proof.
  unfold getUTXO, fallback, apiFallbacks_fetchUTXO, fallbackFrom, call, throw.
  destruct (Sochain_fetchUTXO env (clock w) (sochainNetwork testnet) hash
                              index); reflexivity.
Qed.

(** X1. [getUTXOs] and [getUTXO] each make exactly one provider request, on
    the chain LTCTEST for a testnet handler and LTC otherwise; [getUTXOs]
    asks for the given address with the given confirmations, or [0] when
    none are given, and returns the provider's list as it is; when the
    provider fails, so does the getter.  [_getConfirmations] is [getUTXO]
    for output [0], of which it returns the confirmations. *)
Theorem static_getters_single_query :
  forall (env : Env) (testnet : bool) (w : World),
    let network := if testnet then "LTCTEST"%string else "LTC"%string in
    (forall address confirmationsOpt,
        getUTXOs env testnet address confirmationsOpt w
        = (match Sochain_fetchUTXOs env (clock w) network address
                                    (defaultConfirmations confirmationsOpt) with
           | inr utxos => inr utxos
           | inl e => inl (AggregatedError [e])
           end,
           {| clock := S (clock w);
              calls := calls w ++
                       [FetchUTXOs network address
                                   (defaultConfirmations confirmationsOpt)] |}))
    /\
    (forall hash index,
        getUTXO env testnet hash index w
        = (match Sochain_fetchUTXO env (clock w) network hash index with
           | inr utxo => inr utxo
           | inl e => inl (AggregatedError [e])
           end,
           {| clock := S (clock w);
              calls := calls w ++ [FetchUTXO network hash index] |})) /\
    (forall hash,
        _getConfirmations env testnet hash w
        = (match Sochain_fetchUTXO env (clock w) network hash 0 with
           | inr utxo => inr (confirmations utxo)
           | inl e => inl (AggregatedError [e])
           end,
           {| clock := S (clock w);
              calls := calls w ++ [FetchUTXO network hash 0] |})).
Proof.
  intros env testnet w network.
  assert (En : network = sochainNetwork testnet) by reflexivity.
  rewrite En. split; [|split].
  - intros address confirmationsOpt. apply getUTXOs_run.
  - intros hash index. apply getUTXO_run.
  - intros hash. unfold _getConfirmations, bind.
    fold (getUTXO env testnet hash 0). rewrite getUTXO_run.
    destruct (Sochain_fetchUTXO env (clock w) (sochainNetwork testnet) hash 0);
      reflexivity.
Qed.

(** X2. A handler is a testnet handler unless its network name is exactly
    "mainnet": only then do its provider requests go to the chain LTC and
    its transactions get built for [litecoin]; a name such as "Mainnet" or
    the empty name gives LTCTEST and [litecoinTest]. *)
Theorem constructor_mainnet_only :
  forall network,
    (constructorTestnet network = false <-> network = "mainnet"%string) /\
    (sochainNetwork (constructorTestnet network) = "LTC"%string
     <-> network = "mainnet"%string) /\
    (bitcoinNetwork (constructorTestnet network) = litecoin
     <-> network = "mainnet"%string) /\
    constructorTestnet "Mainnet" = true /\
    constructorTestnet "" = true /\
    (forall env address confirmationsOpt w,
        calls (snd (getUTXOs env (constructorTestnet network) address
                             confirmationsOpt w))
        = calls w ++
          [FetchUTXOs (if String.eqb network "mainnet" then "LTC"
                       else "LTCTEST")%string
                      address (defaultConfirmations confirmationsOpt)]).
Proof.
  intros network.
  assert (Hcalls : forall env address confirmationsOpt w,
             calls (snd (getUTXOs env (constructorTestnet network) address
                                  confirmationsOpt w))
             = calls w ++
               [FetchUTXOs (sochainNetwork (constructorTestnet network))
                           address (defaultConfirmations confirmationsOpt)]).
  { intros. rewrite getUTXOs_run. reflexivity. }
  revert Hcalls.
  unfold constructorTestnet, sochainNetwork, bitcoinNetwork.
  destruct (String.eqb_spec network "mainnet") as [E|N]; simpl; intros Hcalls.
  - repeat split; auto.
  - repeat split; try discriminate; try (intros H; contradiction); auto.
Qed.

Lemma constructor_mainnet_only_witness :
  constructorTestnet "mainnet" = false /\
  sochainNetwork (constructorTestnet "mainnet") = "LTC"%string.
Proof.
  pose proof (constructor_mainnet_only "mainnet") as H.
  split.
  - exact (proj2 (proj1 H) eq_refl).
  - exact (proj2 (proj1 (proj2 H)) eq_refl).
Defined.

(* ------------------------------------------------------------------ *)
(** * More on balances *)

Lemma getBalanceInSats_run (env : Env) (testnet : bool) (asset : Asset)
      (options : option TxOptions) (w : World) :
  getBalanceInSats env testnet asset options w
  = match balanceUTXOs env testnet asset options w with
    | (inr utxos, w') => (inr (BigNumber.ofZ (totalAmount utxos)), w')
    | (inl e, w') => (inl e, w')
    end.
Proof.
  unfold getBalanceInSats, bind, ret.
  destruct (balanceUTXOs env testnet asset options w) as [[e|utxos] w'];
    [reflexivity|].
  rewrite sumAmounts_total. reflexivity.
Qed.

Lemma getBalance_run (env : Env) (testnet : bool) (asset : Asset)
      (options : option TxOptions) (w : World) :
  getBalance env testnet asset options w
  = match balanceUTXOs env testnet asset options w with
    | (inr utxos, w') =>
        (inr (totalAmount utxos * 1000000000000 # 100000000000000000000), w')
    | (inl e, w') => (inl e, w')
    end.
Proof.
  unfold getBalance, bind. rewrite getBalanceInSats_run.
  destruct (balanceUTXOs env testnet asset options w) as [[e|utxos] w'];
    [reflexivity|].
  unfold ret. rewrite dividedBy_sats. reflexivity.
Qed.

Lemma balanceUTXOs_given (env : Env) (testnet : bool) (asset : Asset)
      (o : TxOptions) (a : string) (w : World) :
  opt_address o = Some a -> a <> ""%string ->
  balanceUTXOs env testnet asset (Some o) w
  = getUTXOs env testnet a (opt_confirmations o) w.
Proof.
  intros Ha Hne. unfold balanceUTXOs, bind.
  destruct o as [oa oc ofee osub]; simpl in *. subst oa.
  unfold truthy. destruct (String.eqb_spec a "") as [E|_]; [contradiction|].
  reflexivity.
Qed.

Lemma balanceUTXOs_own (env : Env) (testnet : bool) (asset : Asset)
      (options : option TxOptions) (w : World) :
  options = None \/
  (exists o, options = Some o /\
             (opt_address o = None \/ opt_address o = Some ""%string)) ->
  balanceUTXOs env testnet asset options w
  = (own <- address env asset ;;
     getUTXOs env testnet own (spreadConfirmations options)) w.
Proof.
  intros [->|[o [-> [Ha|Ha]]]]; unfold balanceUTXOs; [reflexivity| |];
    destruct o as [oa oc ofee osub]; simpl in *; subst oa; reflexivity.
Qed.

(** X3. [getBalance] asks the provider about [options.address] when that is
    a non-empty string, and then never asks the key for its address;
    without options, without an address in them, or with the empty string
    as address, it first resolves the handler's own address and asks about
    that one.  When the key fails, no provider is asked. *)
Theorem getBalance_address_choice :
  forall env testnet asset options w,
    let minConfirmations :=
      defaultConfirmations (spreadConfirmations options) in
    (forall o a,
        options = Some o -> opt_address o = Some a -> a <> ""%string ->
        calls (snd (getBalance env testnet asset options w))
        = calls w ++ [FetchUTXOs (sochainNetwork testnet) a minConfirmations])
    /\
    (options = None \/
     (exists o, options = Some o /\
                (opt_address o = None \/ opt_address o = Some ""%string)) ->
     match privateKey_getAddress env (clock w) with
     | inr own =>
         calls (snd (getBalance env testnet asset options w))
         = calls w ++ [GetAddress;
                       FetchUTXOs (sochainNetwork testnet) own minConfirmations]
     | inl e =>
         getBalance env testnet asset options w
         = (inl e, {| clock := S (clock w); calls := calls w ++ [GetAddress] |})
     end).
Proof.
  intros env testnet asset options w minConfirmations. split.
  - intros o a -> Ha Hne. rewrite getBalance_run.
    rewrite (balanceUTXOs_given env testnet asset o a w Ha Hne).
    rewrite getUTXOs_run. unfold minConfirmations. simpl.
    destruct (Sochain_fetchUTXOs env (clock w) (sochainNetwork testnet) a
                (defaultConfirmations (opt_confirmations o))); reflexivity.
  - intros Hown. rewrite getBalance_run.
    rewrite (balanceUTXOs_own env testnet asset options w Hown).
    unfold bind, address, call.
    destruct (privateKey_getAddress env (clock w)) as [e|own]; [reflexivity|].
    rewrite getUTXOs_run. cbn [clock calls]. fold minConfirmations.
    destruct (Sochain_fetchUTXOs env (S (clock w)) (sochainNetwork testnet) own
                minConfirmations); cbn [snd calls];
      rewrite <- app_assoc; reflexivity.
Qed.

Lemma getBalance_address_choice_witness :
  calls (snd (getBalance happyEnv false (AssetString "LTC")
                         otherAddressOptions emptyWorld))
  = [FetchUTXOs "LTC" "Lother" 6] /\
  calls (snd (getBalance happyEnv false (AssetString "LTC") None emptyWorld))
  = [GetAddress; FetchUTXOs "LTC" "LfromAddress" 0].
Proof.
  pose proof (getBalance_address_choice happyEnv false (AssetString "LTC")
                otherAddressOptions emptyWorld) as H1.
  pose proof (getBalance_address_choice happyEnv false (AssetString "LTC")
                None emptyWorld) as H2.
  split.
  - exact (proj1 H1 _ "Lother"%string eq_refl eq_refl ltac:(discriminate)).
  - exact (proj2 H2 (or_introl eq_refl)).
Defined.

(** X4. [getBalance] reports a balance only when the UTXO query succeeded,
    and then it is the integer sum over 10^8; when the address or the query
    fails, [getBalanceInSats] and [getBalance] fail with that same error,
    having made the same calls: a failure is never turned into a zero
    balance. *)
Theorem getBalance_propagates_failure :
  forall env testnet asset options w,
    match balanceUTXOs env testnet asset options w with
    | (inr utxos, w') =>
        exists balance,
          getBalance env testnet asset options w = (inr balance, w') /\
          (balance == inject_Z (totalAmount utxos) / inject_Z (10 ^ 8))%Q
    | (inl e, w') =>
        getBalanceInSats env testnet asset options w = (inl e, w') /\
        getBalance env testnet asset options w = (inl e, w')
    end.
Proof.
  intros env testnet asset options w.
  rewrite getBalance_run, getBalanceInSats_run.
  destruct (balanceUTXOs env testnet asset options w) as [[e|utxos] w'].
  - split; reflexivity.
  - eexists. split; [reflexivity|].
    unfold Qeq, Qdiv, Qmult, Qinv, inject_Z; simpl. lia.
Qed.

Lemma totalAmount_bounds (utxos : list UTXO) :
  (forall u, In u utxos -> 0 <= amount u) ->
  0 <= totalAmount utxos /\
  forall u, In u utxos -> amount u <= totalAmount utxos.
Proof.
  induction utxos as [|v utxos IH]; simpl; intros Hpos.
  - split; [lia | intros u []].
  - destruct IH as [H0 Hle]; [intros u Hu; apply Hpos; right; exact Hu|].
    pose proof (Hpos v (or_introl eq_refl)) as Hv.
    split; [lia|].
    intros u [<-|Hu]; [lia|]. specialize (Hle u Hu). lia.
Qed.

(** X5. When no UTXO has a negative amount the balance is not negative and
    is at least the amount of every single UTXO; for an empty list of UTXOs
    the balance is zero. *)
Theorem getBalance_bounds :
  forall env testnet asset options w utxos w',
    balanceUTXOs env testnet asset options w = (inr utxos, w') ->
    (forall u, In u utxos -> 0 <= amount u) ->
    exists balance,
      getBalance env testnet asset options w = (inr balance, w') /\
      (0 <= balance)%Q /\
      (forall u, In u utxos ->
                 (inject_Z (amount u) / inject_Z (10 ^ 8) <= balance)%Q) /\
      (utxos = [] -> (balance == 0)%Q).
Proof.
  intros env testnet asset options w utxos w' Hfetch Hpos.
  destruct (totalAmount_bounds utxos Hpos) as [H0 Hle].
  exists (totalAmount utxos * 1000000000000 # 100000000000000000000).
  split; [rewrite getBalance_run, Hfetch; reflexivity|].
  split; [|split].
  - unfold Qle; simpl. lia.
  - intros u Hu. specialize (Hle u Hu).
    unfold Qle, Qdiv, Qmult, Qinv, inject_Z; simpl. lia.
  - intros ->. reflexivity.
Qed.

Lemma getBalance_bounds_witness :
  exists balance,
    getBalance happyEnv false (AssetString "LTC") None emptyWorld
    = (inr balance,
       {| clock := 2; calls := [GetAddress; FetchUTXOs "LTC" "LfromAddress" 0] |})
    /\ (0 <= balance)%Q.
Proof.
  destruct (getBalance_bounds happyEnv false (AssetString "LTC") None
              emptyWorld exampleUTXOs
              {| clock := 2;
                 calls := [GetAddress; FetchUTXOs "LTC" "LfromAddress" 0] |}
              eq_refl) as [balance [Hb [H0 _]]].
  - intros u Hu. simpl in Hu.
    destruct Hu as [<-|[<-|[<-|[<-|[]]]]]; simpl; lia.
  - exists balance. split; assumption.
Defined.

(* ------------------------------------------------------------------ *)
(** * More on spend selection *)

Section Stability.

Context {A : Type} (key : A -> Z) (a : Z).

Let hasKey (x : A) : bool := key x =? a.

Lemma filter_insert (x : A) (l : list A) :
  filter hasKey (Immutable.insert key x l) = filter hasKey (x :: l).
Proof.
  induction l as [|y l IH]; [reflexivity|].
  cbn [Immutable.insert].
  destruct (Z.leb_spec (key x) (key y)) as [Hle|Hgt]; [reflexivity|].
  cbn [filter] in *. rewrite IH. unfold hasKey.
  destruct (Z.eqb_spec (key x) a) as [Ex|Nx]; [|reflexivity].
  destruct (Z.eqb_spec (key y) a) as [Ey|Ny]; [lia | reflexivity].
Qed.

Lemma filter_sortBy (l : list A) :
  filter hasKey (Immutable.sortBy key l) = filter hasKey l.
Proof.
  induction l as [|x l IH]; [reflexivity|].
  cbn [Immutable.sortBy fold_right].
  fold (Immutable.sortBy key l). rewrite filter_insert.
  cbn [filter]. rewrite IH. reflexivity.
Qed.

End Stability.

(** X6. Selection neither drops nor adds value: the candidates handed to
    the builder are as many as the fetched UTXOs and sum to the same number
    of smallest units as [getBalanceInSats] computes from the fetched list;
    there are no candidates exactly when nothing was fetched. *)
Theorem spendCandidates_keep_total :
  forall fetched,
    sumAmounts (spendCandidates fetched) = sumAmounts fetched /\
    List.length (spendCandidates fetched) = List.length fetched /\
    (spendCandidates fetched = [] <-> fetched = []).
Proof.
  intros fetched.
  pose proof (spendCandidates_permutation fetched) as Hperm.
  split; [|split].
  - rewrite !sumAmounts_total.
    rewrite (totalAmount_permutation _ _ Hperm). reflexivity.
  - symmetry. apply Permutation_length, Hperm.
  - split.
    + intros E. rewrite E in Hperm. apply Permutation_nil.
      apply Permutation_sym, Hperm.
    + intros ->. reflexivity.
Qed.

Lemma spendCandidates_keep_total_witness :
  spendCandidates [] = [] /\
  sumAmounts (spendCandidates exampleUTXOs) = sumAmounts exampleUTXOs.
Proof.
  split.
  - exact (proj2 (proj2 (proj2 (spendCandidates_keep_total []))) eq_refl).
  - exact (proj1 (spendCandidates_keep_total exampleUTXOs)).
Defined.

(** X7. The first candidate is a fetched UTXO of the largest amount, and
    among UTXOs of equal amount the one the provider returned later comes
    first: the candidates of one amount are the fetched UTXOs of that
    amount in reverse order. *)
Theorem spendCandidates_order :
  forall fetched,
    (forall a,
        filter (fun u => amount u =? a) (spendCandidates fetched)
        = rev (filter (fun u => amount u =? a) fetched)) /\
    (forall first rest,
        spendCandidates fetched = first :: rest ->
        In first fetched /\
        forall u, In u fetched -> amount u <= amount first).
Proof.
  intros fetched. split.
  - intros a.
    unfold spendCandidates, Immutable.toArray, Immutable.reverse,
      Immutable.List.
    rewrite filter_rev. f_equal. apply (filter_sortBy amount a).
  - intros first rest E.
    pose proof (spendCandidates_permutation fetched) as Hperm.
    pose proof (spendCandidates_sorted fetched) as Hsorted.
    rewrite E in Hperm, Hsorted.
    split.
    + eapply Permutation_in; [apply Permutation_sym, Hperm | left; reflexivity].
    + intros u Hu.
      apply (Permutation_in _ Hperm) in Hu.
      destruct Hu as [<-|Hu]; [lia|].
      inversion Hsorted as [|? ? _ Hall]; subst.
      rewrite Forall_forall in Hall. apply Hall, Hu.
Qed.

Lemma spendCandidates_order_witness :
  spendCandidates exampleUTXOs
  = utxoOf 1000000000 :: map utxoOf [500000000; 300000000; 100000000] /\
  forall u, In u exampleUTXOs -> amount u <= amount (utxoOf 1000000000).
Proof.
  split; [reflexivity|].
  exact (proj2 (proj2 (spendCandidates_order exampleUTXOs)
                      (utxoOf 1000000000)
                      (map utxoOf [500000000; 300000000; 100000000])
                      eq_refl)).
Defined.

(* ------------------------------------------------------------------ *)
(** * A send follows its async body *)

Lemma remaining_step (env : Env) (c : Closure) (p : Phase) (w : World) :
  p <> Finished ->
  remaining env c p w
  = match awaited env c p w with
    | (inr (Continue next), w') => remaining env c next w'
    | (inr (Broadcasted hash), w') => (inr hash, w')
    | (inl e, w') => (inl e, w')
    end.
Proof.
  intros Hp.
  destruct p; cbn [remaining awaited]; unfold asyncBody, bind;
    try match goal with
        | |- context [match ?m w with _ => _ end] =>
            destruct (m w) as [[?|?] ?]; reflexivity
        end.
  exfalso. apply Hp. reflexivity.
Qed.

Lemma remaining_issues (env : Env) (c : Closure) (p : Phase) :
  issues (fun _ => True) (remaining env c p).
Proof.
  assert (Hbroadcast : forall built,
             issues (fun _ : Request => True)
                    (retryNTimes
                       (fallback (apiFallbacks_broadcastTransaction
                                    env (this_testnet c) (toHex built))) 3)).
  { intros built. apply issues_retryFrom, issues_fallbackFrom.
    constructor; [|constructor]. apply issues_call. exact I. }
  assert (Hbuild : forall a utxos,
             issues (fun _ : Request => True)
                    (remaining env c (AwaitBuild a utxos))).
  { intros a utxos. cbn [remaining].
    apply issues_bind; [apply issues_call; exact I | exact Hbroadcast]. }
  assert (Hfetch : forall a,
             issues (fun _ : Request => True) (remaining env c (AwaitUTXOs a))).
  { intros a. cbn [remaining]. apply issues_bind.
    - apply issues_fallbackFrom. constructor; [|constructor].
      apply issues_call. exact I.
    - intros fetched. apply (Hbuild a (spendCandidates fetched)). }
  destruct p.
  - cbn [remaining]. unfold asyncBody.
    apply issues_bind; [apply issues_call; exact I | exact Hfetch].
  - apply Hfetch.
  - apply Hbuild.
  - apply Hbroadcast.
  - apply issues_throw.
Qed.

Lemma _getConfirmations_run (env : Env) (testnet : bool) (hash : string)
      (w : World) :
  _getConfirmations env testnet hash w
  = (match Sochain_fetchUTXO env (clock w) (sochainNetwork testnet) hash 0 with
     | inr utxo => inr (confirmations utxo)
     | inl e => inl (AggregatedError [e])
     end,
     {| clock := S (clock w);
        calls := calls w ++ [FetchUTXO (sochainNetwork testnet) hash 0] |}).
Proof.
  unfold _getConfirmations, bind.
  fold (getUTXO env testnet hash 0). rewrite getUTXO_run.
  destruct (Sochain_fetchUTXO env (clock w) (sochainNetwork testnet) hash 0);
    reflexivity.
Qed.

Lemma settled_keeps (l l' : list Obs) (r : Error + string) :
  settled l = Some r -> settled (l ++ l') = Some r.
Proof.
  induction l as [|o l IH]; simpl; [discriminate|].
  destruct o; auto.
Qed.

Lemma Follows_sendSats env testnet to valueIn asset options :
  let s := sendSats testnet to valueIn asset options in
  Follows env (fst (asyncBody env (closure s) emptyWorld))
          (snd (asyncBody env (closure s) emptyWorld)) s.
Proof.
  intros s. unfold Follows. cbn [phase s sendSats remaining world log settled].
  split; [|reflexivity].
  destruct (asyncBody env _ emptyWorld); reflexivity.
Qed.

Lemma Follows_resume (env : Env) (result : Error + string) (final : World)
      (s : State) :
  Inv s -> Follows env result final s -> Follows env result final (resume env s).
Proof.
  intros HI HF.
  destruct (Phase_finished_dec (phase s)) as [Hf|Hnf].
  - unfold resume. rewrite Hf. exact HF.
  - destruct (Inv_pending s HI Hnf) as [Ht [He Hl]].
    assert (HF' : remaining env (closure s) (phase s) (world s)
                  = (result, final) /\ settled (log s) = None).
    { unfold Follows in HF. destruct (phase s); try exact HF.
      exfalso. apply Hnf. reflexivity. }
    destruct HF' as [Hrem Hs].
    rewrite (remaining_step env _ _ _ Hnf) in Hrem.
    rewrite (resume_unfold env s Hnf).
    destruct (awaited env (closure s) (phase s) (world s))
      as [[error|[next|hash]] w'] eqn:Ha.
    + injection Hrem as <- <-.
      unfold Follows; cbn [phase log errored world].
      split; [rewrite settled_app by exact Hs; reflexivity|].
      split; reflexivity.
    + destruct (awaited_continue env _ _ _ _ _ Hnf Ha) as [_ Hn].
      unfold Follows; cbn [phase log world closure].
      destruct next; try (split; assumption).
      exfalso. apply Hn. reflexivity.
    + injection Hrem as <- <-.
      unfold Follows; cbn [phase log errored world txHash closure].
      split; [rewrite settled_app by exact Hs; reflexivity|].
      split; [exact He|]. split; [reflexivity|].
      exists 0%nat. split; [cbn [repeat]; rewrite app_nil_r; reflexivity|].
      intros _. split; [reflexivity|].
      rewrite Hl. repeat constructor.
Qed.

Lemma Follows_tick (env : Env) (result : Error + string) (final : World)
      (s : State) :
  Inv s -> Follows env result final s -> Follows env result final (tick env s).
Proof.
  intros HI HF. unfold tick.
  destruct (monitor s); [|exact HF].
  unfold isErrored, hashExists.
  destruct (errored s) eqn:He.
  { unfold Follows in *. cbn [phase log errored world txHash closure].
    rewrite He in HF. exact HF. }
  destruct (txHash s) as [recorded|] eqn:Ht; [|exact HF].
  assert (Hf : phase s = Finished).
  { destruct (Phase_finished_dec (phase s)) as [Hf|Hnf]; [exact Hf|].
    destruct (Inv_pending s HI Hnf) as [Hn _].
    rewrite Hn in Ht. discriminate. }
  unfold Follows in HF. rewrite Hf in HF.
  destruct HF as [Hs Hres].
  destruct result as [error|hash].
  { destruct Hres as [He' _]. rewrite He' in He. discriminate. }
  destruct Hres as [_ [Ht' [polls [Hc Hq]]]].
  rewrite Ht' in Ht. injection Ht as <-.
  unfold fetchConfirmations. rewrite Ht'.
  destruct (truthy hash) eqn:Htr.
  - rewrite _getConfirmations_run.
    assert (Hc' : calls (world s) ++
                  [FetchUTXO (sochainNetwork (this_testnet (closure s))) hash 0]
                  = calls final ++
                    repeat (confirmationQuery (closure s) hash) (S polls)).
    { rewrite Hc, <- app_assoc. f_equal.
      exact (eq_sym (repeat_cons polls (confirmationQuery (closure s) hash))). }
    destruct (Sochain_fetchUTXO env (clock (world s))
                (sochainNetwork (this_testnet (closure s))) hash 0)
      as [e|utxo];
      unfold Follows; cbn [phase log errored world txHash closure calls];
      rewrite Hf; (split; [try apply settled_keeps; exact Hs|]);
      (split; [reflexivity|]); (split; [reflexivity|]);
      exists (S polls); (split; [exact Hc'|]);
      intros H; rewrite Htr in H; discriminate.
  - unfold ret.
    unfold Follows; cbn [phase log errored world txHash closure].
    rewrite Hf. split; [apply settled_keeps; exact Hs|].
    split; [reflexivity|]. split; [reflexivity|].
    exists polls. split; [exact Hc|].
    intros _. destruct (Hq eq_refl) as [Hp Hz].
    split; [exact Hp|].
    apply Forall_app. split; [exact Hz|]. repeat constructor.
Qed.

Lemma Follows_exec (env : Env) (result : Error + string) (final : World)
      (a : Action) (s : State) :
  Inv s -> Follows env result final s ->
  Follows env result final (exec env a s).
Proof.
  intros HI HF. destruct a; cbn [exec].
  - apply Follows_resume; assumption.
  - apply Follows_tick; assumption.
  - exact HF.
Qed.

Lemma Follows_run (env : Env) (result : Error + string) (final : World)
      (schedule : list Action) (s : State) :
  Inv s -> Follows env result final s ->
  Follows env result final (run env schedule s).
Proof.
  revert s. induction schedule as [|a schedule IH]; intros s HI HF.
  - exact HF.
  - apply IH; [apply Inv_exec, HI | apply Follows_exec; assumption].
Qed.

(** The run of the async body from the empty world, call by call. *)
Lemma asyncBody_run (env : Env) (c : Closure) :
  let network := sochainNetwork (this_testnet c) in
  let minConfirmations :=
    defaultConfirmations (spreadConfirmations (options c)) in
  asyncBody env c emptyWorld
  = match privateKey_getAddress env 0 with
    | inl e => (inl e, {| clock := 1; calls := [GetAddress] |})
    | inr fromAddress =>
        let fetch := FetchUTXOs network fromAddress minConfirmations in
        match Sochain_fetchUTXOs env 1 network fromAddress minConfirmations with
        | inl e => (inl (AggregatedError [e]),
                    {| clock := 2; calls := [GetAddress; fetch] |})
        | inr fetched =>
            let build :=
              BuildUTXO (bitcoinNetwork (this_testnet c)) fromAddress (to c)
                        (valueIn c) (spendCandidates fetched) (options c) in
            match BitgoUTXOLib_buildUTXO env 2 (bitcoinNetwork (this_testnet c))
                    fromAddress (to c) (valueIn c) (spendCandidates fetched)
                    (options c) with
            | inl e => (inl e, {| clock := 3;
                                  calls := [GetAddress; fetch; build] |})
            | inr built =>
                let submit := broadcastRequest c built in
                let answer n :=
                  Sochain_broadcastTransaction env n network (toHex built) in
                match answer 3%nat with
                | inr hash =>
                    (inr hash,
                     {| clock := 4;
                        calls := [GetAddress; fetch; build; submit] |})
                | inl _ =>
                    match answer 4%nat with
                    | inr hash =>
                        (inr hash,
                         {| clock := 5;
                            calls := [GetAddress; fetch; build; submit;
                                      submit] |})
                    | inl _ =>
                        (match answer 5%nat with
                         | inr hash => inr hash
                         | inl e =>
                             inl (RetryExhaustedError (AggregatedError [e]))
                         end,
                         {| clock := 6;
                            calls := [GetAddress; fetch; build; submit;
                                      submit; submit] |})
                    end
                end
            end
        end
    end.
Proof.
  intros network minConfirmations.
  unfold asyncBody, bind, address, call. cbn [clock calls emptyWorld app].
  destruct (privateKey_getAddress env 0) as [e|fromAddress]; [reflexivity|].
  rewrite getUTXOs_run. cbn [clock calls app].
  fold network minConfirmations.
  destruct (Sochain_fetchUTXOs env 1 network fromAddress minConfirmations)
    as [e|fetched]; [reflexivity|].
  cbn [clock calls app].
  destruct (BitgoUTXOLib_buildUTXO env 2 (bitcoinNetwork (this_testnet c))
              fromAddress (to c) (valueIn c) (spendCandidates fetched)
              (options c)) as [e|built]; [reflexivity|].
  unfold retryNTimes. cbn [retryFrom].
  rewrite broadcast_attempt. cbn [clock calls app]. fold network.
  destruct (Sochain_broadcastTransaction env 3 network (toHex built))
    as [e1|h1]; [|reflexivity].
  rewrite broadcast_attempt. cbn [clock calls app]. fold network.
  destruct (Sochain_broadcastTransaction env 4 network (toHex built))
    as [e2|h2]; [|reflexivity].
  rewrite broadcast_attempt. cbn [clock calls app]. fold network.
  destruct (Sochain_broadcastTransaction env 5 network (toHex built))
    as [e3|h3]; reflexivity.
Qed.

(** X8. Whatever the schedule, a send does what its async body does when
    run on its own.  While the body is pending the result is not settled
    and the calls made so far are the first calls of the body's run; once
    it has finished the PromiEvent is settled with the body's result, a
    rejected send has made exactly the body's calls and makes no further
    one, and a resolved send has added nothing but confirmation queries for
    the resolved hash.  Four resumptions finish the body. *)
Theorem send_follows_asyncBody :
  forall env testnet to valueIn asset options schedule,
    let start := sendSats testnet to valueIn asset options in
    let s := run env schedule start in
    let result := fst (asyncBody env (closure start) emptyWorld) in
    let final := snd (asyncBody env (closure start) emptyWorld) in
    (phase s <> Finished ->
     settled (log s) = None /\
     exists rest, calls final = calls (world s) ++ rest) /\
    (phase s = Finished ->
     settled (log s) = Some result /\
     match result with
     | inl _ => world s = final
     | inr hash =>
         exists polls,
           calls (world s)
           = calls final ++ repeat (confirmationQuery (closure start) hash) polls
     end) /\
    ((4 <= countResumes schedule)%nat -> phase s = Finished).
Proof.
  intros env testnet to valueIn asset options schedule start s result final.
  assert (HF : Follows env result final s).
  { apply Follows_run; [apply Inv_sendSats | apply Follows_sendSats]. }
  assert (Hc : closure s = closure start) by apply closure_run.
  split; [|split].
  - intros Hnf.
    assert (HF' : remaining env (closure s) (phase s) (world s)
                  = (result, final) /\ settled (log s) = None).
    { unfold Follows in HF. destruct (phase s); try exact HF.
      exfalso. apply Hnf. reflexivity. }
    destruct HF' as [Hrem Hs]. split; [exact Hs|].
    destruct (remaining_issues env (closure s) (phase s) (world s))
      as [added [E _]].
    rewrite Hrem in E. exists added. exact E.
  - intros Hf. unfold Follows in HF. rewrite Hf, Hc in HF.
    destruct HF as [Hs Hres]. split; [exact Hs|].
    destruct result as [error|hash].
    + exact (proj2 Hres).
    + destruct Hres as [_ [_ [polls [E _]]]]. exists polls. exact E.
  - intros H4. apply finished_after_four, H4.
Qed.

Lemma send_follows_asyncBody_witness :
  let s := run happyEnv [Tick; Resume; Resume; Tick; Resume; Resume; Tick; Tick]
               exampleSend in
  phase s = Finished /\
  settled (log s) = Some (inr "txid01"%string) /\
  exists polls,
    calls (world s)
    = calls (snd (asyncBody happyEnv (closure exampleSend) emptyWorld))
      ++ repeat (FetchUTXO "LTC" "txid01" 0) polls.
Proof.
  split; [reflexivity|].
  exact (proj1 (proj2 (send_follows_asyncBody happyEnv false
                         "LtoAddress"%string (BigNumber.ofZ 150000000)
                         (AssetString "LTC") None
                         [Tick; Resume; Resume; Tick; Resume; Resume; Tick;
                          Tick]))
               eq_refl).
Defined.

(** X9. When the async body of a send succeeds, the hash is the one with
    which the broadcast endpoint acknowledged the hex of the transaction
    that the builder returned for: the handler's chain, change going back to
    the handler's own address whatever [options.address] says, the [to] and
    the value of the call, the candidates selected from what the provider
    returned for that own address, and the options as given.  The calls are
    the address, one UTXO query, one build and between one and three
    broadcasts, every broadcast before the last having failed. *)
Theorem asyncBody_success :
  forall env c hash final,
    asyncBody env c emptyWorld = (inr hash, final) ->
    let network := sochainNetwork (this_testnet c) in
    let minConfirmations :=
      defaultConfirmations (spreadConfirmations (options c)) in
    exists fromAddress fetched built attempts,
      privateKey_getAddress env 0 = inr fromAddress /\
      Sochain_fetchUTXOs env 1 network fromAddress minConfirmations
      = inr fetched /\
      BitgoUTXOLib_buildUTXO env 2 (bitcoinNetwork (this_testnet c))
        fromAddress (to c) (valueIn c) (spendCandidates fetched) (options c)
      = inr built /\
      (1 <= attempts <= 3)%nat /\
      Sochain_broadcastTransaction env (2 + attempts) network (toHex built)
      = inr hash /\
      (forall n, (3 <= n < 2 + attempts)%nat ->
                 exists e, Sochain_broadcastTransaction env n network
                                                        (toHex built) = inl e)
      /\
      calls final
      = [GetAddress;
         FetchUTXOs network fromAddress minConfirmations;
         BuildUTXO (bitcoinNetwork (this_testnet c)) fromAddress (to c)
                   (valueIn c) (spendCandidates fetched) (options c)]
        ++ repeat (broadcastRequest c built) attempts.
Proof.
  intros env c hash final H network minConfirmations.
  rewrite asyncBody_run in H. cbv zeta in H.
  fold network minConfirmations in H.
  destruct (privateKey_getAddress env 0) as [e|fromAddress] eqn:G;
    [discriminate|].
  destruct (Sochain_fetchUTXOs env 1 network fromAddress minConfirmations)
    as [e|fetched] eqn:F; [discriminate|].
  destruct (BitgoUTXOLib_buildUTXO env 2 (bitcoinNetwork (this_testnet c))
              fromAddress (to c) (valueIn c) (spendCandidates fetched)
              (options c)) as [e|built] eqn:B; [discriminate|].
  exists fromAddress, fetched, built.
  destruct (Sochain_broadcastTransaction env 3 network (toHex built))
    as [e1|h1] eqn:A1.
  - destruct (Sochain_broadcastTransaction env 4 network (toHex built))
      as [e2|h2] eqn:A2.
    + destruct (Sochain_broadcastTransaction env 5 network (toHex built))
        as [e3|h3] eqn:A3; [discriminate|].
      injection H as <- <-. exists 3%nat.
      split; [reflexivity|]. split; [exact F|]. split; [exact B|].
      split; [lia|]. split; [exact A3|]. split; [|reflexivity].
      intros n Hn.
      assert (Hcase : n = 3%nat \/ n = 4%nat) by lia.
      destruct Hcase as [->| ->]; eauto.
    + injection H as <- <-. exists 2%nat.
      split; [reflexivity|]. split; [exact F|]. split; [exact B|].
      split; [lia|]. split; [exact A2|]. split; [|reflexivity].
      intros n Hn. assert (n = 3%nat) as -> by lia. eauto.
  - injection H as <- <-. exists 1%nat.
    split; [reflexivity|]. split; [exact F|]. split; [exact B|].
    split; [lia|]. split; [exact A1|]. split; [|reflexivity].
    intros n Hn. lia.
Qed.

Lemma asyncBody_success_witness :
  asyncBody flakyEnv
            {| this_testnet := false; to := "LtoAddress";
               valueIn := BigNumber.ofZ 150000000; asset := AssetString "LTC";
               options := otherAddressOptions |} emptyWorld
  = (inr "txid01"%string,
     {| clock := 6;
        calls := [GetAddress; FetchUTXOs "LTC" "LfromAddress" 6;
                  BuildUTXO litecoin "LfromAddress" "LtoAddress"
                            (BigNumber.ofZ 150000000)
                            (spendCandidates exampleUTXOs) otherAddressOptions;
                  BroadcastTransaction "LTC" "0100beef";
                  BroadcastTransaction "LTC" "0100beef";
                  BroadcastTransaction "LTC" "0100beef"] |}) /\
  exists fromAddress, privateKey_getAddress flakyEnv 0 = inr fromAddress.
Proof.
  split; [reflexivity|].
  destruct (asyncBody_success flakyEnv
              {| this_testnet := false; to := "LtoAddress";
                 valueIn := BigNumber.ofZ 150000000;
                 asset := AssetString "LTC";
                 options := otherAddressOptions |}
              "txid01"%string _ eq_refl)
    as [fromAddress [_ [_ [_ [Ha _]]]]].
  exists fromAddress. exact Ha.
Defined.

(** X10. When the async body of a send fails, it has failed at one stage and
    has not called any later one: a failing key makes no provider call, a
    failing UTXO query makes no build, a failing build makes no broadcast,
    and otherwise three broadcasts in a row have failed.  An error of the
    key or of the builder is passed on as it is. *)
Theorem asyncBody_failure :
  forall env c error final,
    asyncBody env c emptyWorld = (inl error, final) ->
    let network := sochainNetwork (this_testnet c) in
    let minConfirmations :=
      defaultConfirmations (spreadConfirmations (options c)) in
    (privateKey_getAddress env 0 = inl error /\ calls final = [GetAddress]) \/
    (exists fromAddress e,
        privateKey_getAddress env 0 = inr fromAddress /\
        Sochain_fetchUTXOs env 1 network fromAddress minConfirmations = inl e /\
        calls final
        = [GetAddress; FetchUTXOs network fromAddress minConfirmations]) \/
    (exists fromAddress fetched,
        privateKey_getAddress env 0 = inr fromAddress /\
        Sochain_fetchUTXOs env 1 network fromAddress minConfirmations
        = inr fetched /\
        BitgoUTXOLib_buildUTXO env 2 (bitcoinNetwork (this_testnet c))
          fromAddress (to c) (valueIn c) (spendCandidates fetched) (options c)
        = inl error /\
        calls final
        = [GetAddress;
           FetchUTXOs network fromAddress minConfirmations;
           BuildUTXO (bitcoinNetwork (this_testnet c)) fromAddress (to c)
                     (valueIn c) (spendCandidates fetched) (options c)]) \/
    (exists fromAddress fetched built,
        BitgoUTXOLib_buildUTXO env 2 (bitcoinNetwork (this_testnet c))
          fromAddress (to c) (valueIn c) (spendCandidates fetched) (options c)
        = inr built /\
        (forall n, (3 <= n <= 5)%nat ->
                   exists e, Sochain_broadcastTransaction env n network
                                                          (toHex built) = inl e)
        /\
        calls final
        = [GetAddress;
           FetchUTXOs network fromAddress minConfirmations;
           BuildUTXO (bitcoinNetwork (this_testnet c)) fromAddress (to c)
                     (valueIn c) (spendCandidates fetched) (options c)]
          ++ repeat (broadcastRequest c built) 3).
Proof.
  intros env c error final H network minConfirmations.
  rewrite asyncBody_run in H. cbv zeta in H.
  fold network minConfirmations in H.
  destruct (privateKey_getAddress env 0) as [e|fromAddress] eqn:G.
  { injection H as <- <-. left. split; reflexivity. }
  destruct (Sochain_fetchUTXOs env 1 network fromAddress minConfirmations)
    as [e|fetched] eqn:F.
  { injection H as <- <-. right. left. exists fromAddress, e. auto. }
  destruct (BitgoUTXOLib_buildUTXO env 2 (bitcoinNetwork (this_testnet c))
              fromAddress (to c) (valueIn c) (spendCandidates fetched)
              (options c)) as [e|built] eqn:B.
  { injection H as <- <-. right. right. left.
    exists fromAddress, fetched. auto. }
  right. right. right. exists fromAddress, fetched, built.
  destruct (Sochain_broadcastTransaction env 3 network (toHex built))
    as [e1|h1] eqn:A1; [|discriminate].
  destruct (Sochain_broadcastTransaction env 4 network (toHex built))
    as [e2|h2] eqn:A2; [|discriminate].
  destruct (Sochain_broadcastTransaction env 5 network (toHex built))
    as [e3|h3] eqn:A3; [|discriminate].
  injection H as <- <-. split; [exact B|]. split; [|reflexivity].
  intros n Hn.
  assert (Hcase : n = 3%nat \/ n = 4%nat \/ n = 5%nat) by lia.
  destruct Hcase as [->|[->| ->]]; eauto.
Qed.

Lemma asyncBody_failure_witness :
  asyncBody buildFailEnv (closure exampleSend) emptyWorld
  = (inl (BuildError "insufficient funds"),
     {| clock := 3;
        calls := [GetAddress; FetchUTXOs "LTC" "LfromAddress" 0;
                  BuildUTXO litecoin "LfromAddress" "LtoAddress"
                            (BigNumber.ofZ 150000000)
                            (spendCandidates exampleUTXOs) None] |}) /\
  exists fromAddress fetched,
    BitgoUTXOLib_buildUTXO buildFailEnv 2 litecoin fromAddress "LtoAddress"
      (BigNumber.ofZ 150000000) (spendCandidates fetched) None
    = inl (BuildError "insufficient funds").
Proof.
  split; [reflexivity|].
  destruct (asyncBody_failure buildFailEnv (closure exampleSend)
              (BuildError "insufficient funds") _ eq_refl)
    as [[_ E]|[[a [e [_ [_ E]]]]|[[a [fetched [_ [_ [B _]]]]]
                                   |[a [fetched [built [_ [_ E]]]]]]]];
    try discriminate.
  exists a, fetched. exact B.
Defined.

(* ------------------------------------------------------------------ *)
(** * How many calls a send makes *)

Lemma asyncBody_counts (env : Env) (c : Closure) :
  let final := snd (asyncBody env c emptyWorld) in
  (countCalls isGetAddress final <= 1)%nat /\
  (countCalls isFetchUTXOs final <= 1)%nat /\
  (countCalls isBuild final <= 1)%nat /\
  (countCalls isBroadcast final <= 3)%nat.
Proof.
  rewrite asyncBody_run. cbv zeta.
  destruct (privateKey_getAddress env 0) as [e|fromAddress];
    [cbv; repeat split; lia|].
  destruct (Sochain_fetchUTXOs env 1 _ fromAddress _) as [e|fetched];
    [cbv; repeat split; lia|].
  destruct (BitgoUTXOLib_buildUTXO env 2 _ fromAddress _ _ _ _) as [e|built];
    [cbv; repeat split; lia|].
  destruct (Sochain_broadcastTransaction env 3 _ _);
    [|cbv; repeat split; lia].
  destruct (Sochain_broadcastTransaction env 4 _ _);
    [|cbv; repeat split; lia].
  cbv; repeat split; lia.
Qed.

Lemma asyncBody_no_queries (env : Env) (c : Closure) :
  countCalls isConfirmationQuery (snd (asyncBody env c emptyWorld)) = 0%nat.
Proof.
  rewrite asyncBody_run. cbv zeta.
  destruct (privateKey_getAddress env 0) as [e|fromAddress]; [reflexivity|].
  destruct (Sochain_fetchUTXOs env 1 _ fromAddress _) as [e|fetched];
    [reflexivity|].
  destruct (BitgoUTXOLib_buildUTXO env 2 _ fromAddress _ _ _ _) as [e|built];
    [reflexivity|].
  destruct (Sochain_broadcastTransaction env 3 _ _); [|reflexivity].
  destruct (Sochain_broadcastTransaction env 4 _ _); reflexivity.
Qed.

Lemma count_prefix (p : Request -> bool) (l rest : list Request) :
  (List.length (filter p l) <= List.length (filter p (l ++ rest)))%nat.
Proof.
  rewrite filter_app, length_app. lia.
Qed.

Lemma count_polls (p : Request -> bool) (l : list Request) (q : Request)
      (polls : nat) :
  p q = false ->
  List.length (filter p (l ++ repeat q polls)) = List.length (filter p l).
Proof.
  intros Hq. rewrite filter_app, length_app.
  assert (E : filter p (repeat q polls) = []).
  { induction polls as [|polls IH]; [reflexivity|].
    cbn [repeat filter]. rewrite Hq. exact IH. }
  rewrite E. cbn [List.length]. lia.
Qed.

Lemma calls_within_body (env : Env) (p : Request -> bool)
      testnet to valueIn asset options schedule :
  (forall network hash index, p (FetchUTXO network hash index) = false) ->
  let start := sendSats testnet to valueIn asset options in
  (countCalls p (world (run env schedule start))
   <= countCalls p (snd (asyncBody env (closure start) emptyWorld)))%nat.
Proof.
  intros Hp start.
  set (s := run env schedule start).
  set (result := fst (asyncBody env (closure start) emptyWorld)).
  set (final := snd (asyncBody env (closure start) emptyWorld)).
  assert (HF : Follows env result final s).
  { apply Follows_run; [apply Inv_sendSats | apply Follows_sendSats]. }
  unfold countCalls.
  destruct (Phase_finished_dec (phase s)) as [Hf|Hnf].
  - unfold Follows in HF. rewrite Hf in HF. destruct HF as [_ Hres].
    destruct result as [error|hash].
    + destruct Hres as [_ ->]. lia.
    + destruct Hres as [_ [_ [polls [-> _]]]].
      rewrite count_polls by apply Hp. lia.
  - assert (Hrem : remaining env (closure s) (phase s) (world s)
                   = (result, final)).
    { unfold Follows in HF. destruct (phase s); try exact (proj1 HF).
      exfalso. apply Hnf. reflexivity. }
    destruct (remaining_issues env (closure s) (phase s) (world s))
      as [added [E _]].
    rewrite Hrem in E. cbn [snd] in E. rewrite E. apply count_prefix.
Qed.

(** X11. Whatever the schedule, and however often the monitor ticks, a send
    asks the key for its address at most once, queries the UTXOs at most
    once, asks the builder at most once and submits at most three
    broadcasts. *)
Theorem send_call_bounds :
  forall env testnet to valueIn asset options schedule,
    let w := world (run env schedule
                        (sendSats testnet to valueIn asset options)) in
    (countCalls isGetAddress w <= 1)%nat /\
    (countCalls isFetchUTXOs w <= 1)%nat /\
    (countCalls isBuild w <= 1)%nat /\
    (countCalls isBroadcast w <= 3)%nat.
Proof.
  intros env testnet to valueIn asset options schedule w.
  destruct (asyncBody_counts env
              (closure (sendSats testnet to valueIn asset options)))
    as [H1 [H2 [H3 H4]]].
  pose proof (calls_within_body env isGetAddress testnet to valueIn asset
                options schedule (fun _ _ _ => eq_refl)) as B1.
  pose proof (calls_within_body env isFetchUTXOs testnet to valueIn asset
                options schedule (fun _ _ _ => eq_refl)) as B2.
  pose proof (calls_within_body env isBuild testnet to valueIn asset
                options schedule (fun _ _ _ => eq_refl)) as B3.
  pose proof (calls_within_body env isBroadcast testnet to valueIn asset
                options schedule (fun _ _ _ => eq_refl)) as B4.
  cbv zeta in *. fold w in B1, B2, B3, B4.
  repeat split; lia.
Qed.

(** X12. An empty hash counts as no hash.  When the broadcast endpoint
    acknowledges with the empty string the send resolves with it, but the
    fetch callback of line 234 takes the hash for unset: no confirmation
    query is ever made for that send, and every confirmation event it emits
    reports zero. *)
Theorem empty_hash_never_polls :
  forall env testnet to valueIn asset options schedule,
    let start := sendSats testnet to valueIn asset options in
    let s := run env schedule start in
    settled (log s) = Some (inr ""%string) ->
    calls (world s) = calls (snd (asyncBody env (closure start) emptyWorld)) /\
    countCalls isConfirmationQuery (world s) = 0%nat /\
    forall count, In (Emitted (Confirmation count)) (log s) -> count = 0.
Proof.
  intros env testnet to valueIn asset options schedule start s Hs.
  set (result := fst (asyncBody env (closure start) emptyWorld)).
  set (final := snd (asyncBody env (closure start) emptyWorld)).
  assert (HF : Follows env result final s).
  { apply Follows_run; [apply Inv_sendSats | apply Follows_sendSats]. }
  assert (Hfin : phase s = Finished).
  { destruct (Phase_finished_dec (phase s)) as [Hf|Hnf]; [exact Hf|].
    exfalso. unfold Follows in HF.
    destruct (phase s); try (destruct HF as [_ Hn]; rewrite Hn in Hs;
                             discriminate).
    apply Hnf. reflexivity. }
  unfold Follows in HF. rewrite Hfin in HF. destruct HF as [Hs' Hres].
  rewrite Hs in Hs'. injection Hs' as <-.
  destruct Hres as [_ [Ht [polls [Hc Hz]]]].
  destruct (Hz eq_refl) as [-> Hzero].
  cbn [repeat] in Hc. rewrite app_nil_r in Hc.
  split; [exact Hc|]. split.
  - unfold countCalls. rewrite Hc.
    apply (asyncBody_no_queries env (closure start)).
  - intros count Hin. rewrite Forall_forall in Hzero.
    exact (Hzero _ Hin).
Qed.

Lemma empty_hash_never_polls_witness :
  let s := run emptyHashEnv [Resume; Resume; Resume; Resume; Tick; Tick]
               exampleSend in
  log s = [Subscribed; Emitted (TransactionHash ""); Resolved "";
           Emitted (Confirmation 0); Emitted (Confirmation 0)] /\
  countCalls isConfirmationQuery (world s) = 0%nat.
Proof.
  split; [reflexivity|].
  exact (proj1 (proj2 (empty_hash_never_polls emptyHashEnv false
                         "LtoAddress"%string (BigNumber.ofZ 150000000)
                         (AssetString "LTC") None
                         [Resume; Resume; Resume; Resume; Tick; Tick]
                         eq_refl))).
Defined.

(* ------------------------------------------------------------------ *)
(** * The handle of a send *)

(** X13. A send settles its PromiEvent at most once and never both ways:
    the log holds no [resolve] or [reject] while the async body is pending
    and exactly one once it has finished.  The two variables of the handle
    agree with the outcome: [errored] is set exactly when the send was
    rejected, a hash is recorded exactly when it was resolved, with that
    hash, and the two never hold together. *)
Theorem send_settles_once :
  forall env testnet to valueIn asset options schedule,
    let s := run env schedule (sendSats testnet to valueIn asset options) in
    (phase s <> Finished -> settleCount (log s) = 0%nat) /\
    (phase s = Finished -> settleCount (log s) = 1%nat) /\
    (errored s = true <-> exists error, settled (log s) = Some (inl error)) /\
    (forall hash,
        txHash s = Some hash <-> settled (log s) = Some (inr hash)) /\
    (errored s = true -> txHash s = None).
Proof.
  intros env testnet to valueIn asset options schedule s.
  destruct (reachable_sendSats env schedule testnet to valueIn asset options)
    as [HI _].
  fold s in HI.
  assert (Hcount : forall l, confirmationsOnly l -> settleCount l = 0%nat).
  { unfold settleCount. induction 1 as [|o l Ho Hl IH]; [reflexivity|].
    destruct o as [|[h|n]| |]; try discriminate. exact IH. }
  destruct (log_shape _ HI)
    as [[Hs [Hpre [Ht [He Hnf]]]]
       |[[pre [error [E [Hpre [Hs [He Hf]]]]]]
        |[pre [hash [post [E [Hpre [Hpost [Hs [He [Ht Hf]]]]]]]]]]].
  - rewrite Hpre. split; [reflexivity|].
    split; [intros Hf; contradiction|].
    rewrite Hpre in Hs. split; [|split].
    + rewrite He. split; [discriminate|].
      intros [error H]. discriminate.
    + intros hash. rewrite Ht. split; discriminate.
    + intros _. exact Ht.
  - assert (Ht : txHash s = None).
    { unfold Inv in HI. rewrite Hf, He in HI. exact (proj1 HI). }
    split; [intros Hnf; contradiction|].
    split; [rewrite E, Hpre; reflexivity|]. split; [|split].
    + split; [intros _; exists error; exact Hs | intros _; exact He].
    + intros hash. rewrite Ht, Hs. split; discriminate.
    + intros _. exact Ht.
  - split; [intros Hnf; contradiction|].
    split.
    { intros _. rewrite E, Hpre. unfold settleCount.
      cbn [app filter isSettle List.length].
      fold (settleCount post). rewrite (Hcount post Hpost). reflexivity. }
    split; [|split].
    + rewrite He, Hs. split; [discriminate|].
      intros [error H]. discriminate.
    + intros hash'. rewrite Ht, Hs. split; intros H; injection H as ->;
        reflexivity.
    + intros H. rewrite He in H. discriminate.
Qed.

Lemma send_settles_once_witness :
  let s := run downEnv [Resume; Resume; Tick; Resume] exampleSend in
  errored s = true /\ txHash s = None /\ settleCount (log s) = 1%nat.
Proof.
  pose proof (send_settles_once downEnv false "LtoAddress"%string
                (BigNumber.ofZ 150000000) (AssetString "LTC") None
                [Resume; Resume; Tick; Resume]) as H.
  split; [reflexivity|].
  split; [exact (proj2 (proj2 (proj2 (proj2 H))) eq_refl)|].
  exact (proj1 (proj2 H) eq_refl).
Defined.

(* ------------------------------------------------------------------ *)
(** * More on asset names *)

Lemma asciiUpperChar_idempotent (c : ascii) :
  asciiUpperChar (asciiUpperChar c) = asciiUpperChar c.
Proof.
  destruct c as [[] [] [] [] [] [] [] []]; reflexivity.
Qed.

Lemma asciiUpperChar_ascii (c : ascii) :
  Nat.ltb (nat_of_ascii (asciiUpperChar c)) 128 = Nat.ltb (nat_of_ascii c) 128.
Proof.
  destruct c as [[] [] [] [] [] [] [] []]; reflexivity.
Qed.

Lemma asciiUpper_idempotent (s : string) :
  asciiUpper (asciiUpper s) = asciiUpper s.
Proof.
  induction s as [|c s IH]; [reflexivity|].
  cbn [asciiUpper]. rewrite asciiUpperChar_idempotent, IH. reflexivity.
Qed.

Lemma asciiUpper_ascii (s : string) :
  isASCII (asciiUpper s) = isASCII s.
Proof.
  induction s as [|c s IH]; [reflexivity|].
  cbn [asciiUpper isASCII]. rewrite asciiUpperChar_ascii, IH. reflexivity.
Qed.

Lemma asciiUpper_length (s : string) :
  String.length (asciiUpper s) = String.length s.
Proof.
  induction s as [|c s IH]; [reflexivity|].
  cbn [asciiUpper String.length]. rewrite IH. reflexivity.
Qed.

(** X14. For asset names in ASCII, [handlesAsset] does not depend on the
    case of the letters: a name is handled exactly when its upper-cased
    form is.  Nothing is trimmed: a handled name has three or eight
    characters, so a name with a blank around it is refused. *)
Theorem handlesAsset_ignores_case :
  forall toUpperCase : string -> string,
    (forall s, isASCII s = true -> toUpperCase s = asciiUpper s) ->
    forall s,
      isASCII s = true ->
      handlesAsset toUpperCase (AssetString (asciiUpper s))
      = handlesAsset toUpperCase (AssetString s) /\
      (handlesAsset toUpperCase (AssetString s) = inr true ->
       String.length s = 3%nat \/ String.length s = 8%nat).
Proof.
  intros toUpperCase Hascii s Hs.
  assert (Hstr : forall t,
             handlesAsset toUpperCase (AssetString t)
             = inr (negb (indexOf ["LTC"; "LITECOIN"]%string (toUpperCase t)
                          =? -1))) by reflexivity.
  rewrite !Hstr.
  rewrite (Hascii s Hs).
  rewrite (Hascii (asciiUpper s)) by (rewrite asciiUpper_ascii; exact Hs).
  rewrite asciiUpper_idempotent. split; [reflexivity|].
  intros H. injection H as H. apply indexOf_names in H.
  rewrite <- (asciiUpper_length s).
  destruct H as [-> | ->]; [left | right]; reflexivity.
Qed.

Lemma handlesAsset_ignores_case_witness :
  handlesAsset asciiUpper (AssetString "LITECOIN")
  = handlesAsset asciiUpper (AssetString "LiteCoin") /\
  handlesAsset asciiUpper (AssetString " ltc") = inr false.
Proof.
  split.
  - exact (proj1 (handlesAsset_ignores_case asciiUpper (fun s _ => eq_refl)
                    "LiteCoin"%string eq_refl)).
  - reflexivity.
Defined.

(* ------------------------------------------------------------------ *)
(** * The value a send hands to the builder *)

Lemma broadcast_issues (env : Env) (testnet : bool) (hex : string) :
  issues (fun r => isBroadcast r = true)
         (retryNTimes
            (fallback (apiFallbacks_broadcastTransaction env testnet hex)) 3).
Proof.
  apply issues_retryFrom, issues_fallbackFrom.
  constructor; [|constructor]. apply issues_call. reflexivity.
Qed.

Lemma asyncBody_build_call (env : Env) (c : Closure) (fromAddress : string)
      (fetched : list UTXO) :
  privateKey_getAddress env 0 = inr fromAddress ->
  Sochain_fetchUTXOs env 1 (sochainNetwork (this_testnet c)) fromAddress
    (defaultConfirmations (spreadConfirmations (options c))) = inr fetched ->
  exists tail,
    calls (snd (asyncBody env c emptyWorld))
    = [GetAddress;
       FetchUTXOs (sochainNetwork (this_testnet c)) fromAddress
                  (defaultConfirmations (spreadConfirmations (options c)));
       BuildUTXO (bitcoinNetwork (this_testnet c)) fromAddress (to c)
                 (valueIn c) (spendCandidates fetched) (options c)]
      ++ tail.
Proof.
  intros G F. rewrite asyncBody_run. cbv zeta. rewrite G, F.
  destruct (BitgoUTXOLib_buildUTXO env 2 _ fromAddress _ _ _ _) as [e|built];
    [exists []; reflexivity|].
  destruct (Sochain_broadcastTransaction env 3 _ _);
    [|eexists; reflexivity].
  destruct (Sochain_broadcastTransaction env 4 _ _); eexists; reflexivity.
Qed.

(** After three resumptions of a send whose key and UTXO query answered,
    the third call made is the request to the builder. *)
Lemma third_call_builds (env : Env) (testnet : bool) (dest : string)
      (sats : BigNumber.t) (name : Asset) (opts : option TxOptions)
      (schedule : list Action) (fromAddress : string) (fetched : list UTXO) :
  privateKey_getAddress env 0 = inr fromAddress ->
  Sochain_fetchUTXOs env 1 (sochainNetwork testnet) fromAddress
    (defaultConfirmations (spreadConfirmations opts)) = inr fetched ->
  (3 <= countResumes schedule)%nat ->
  nth_error
    (calls (world (run env schedule (sendSats testnet dest sats name opts)))) 2
  = Some (BuildUTXO (bitcoinNetwork testnet) fromAddress dest sats
                    (spendCandidates fetched) opts).
Proof.
  intros G F H3.
  set (start := sendSats testnet dest sats name opts).
  set (s := run env schedule start).
  set (result := fst (asyncBody env (closure start) emptyWorld)).
  set (final := snd (asyncBody env (closure start) emptyWorld)).
  assert (HF : Follows env result final s).
  { apply Follows_run; [apply Inv_sendSats | apply Follows_sendSats]. }
  assert (Hc : closure s = closure start) by apply closure_run.
  destruct (asyncBody_build_call env (closure start) fromAddress fetched G F)
    as [tail Hfinal].
  fold final in Hfinal.
  cbn [closure start sendSats this_testnet to valueIn options] in Hfinal.
  destruct (Phase_finished_dec (phase s)) as [Hf|Hnf].
  - unfold Follows in HF. rewrite Hf in HF. destruct HF as [_ Hres].
    destruct result as [error|hash].
    + destruct Hres as [_ ->]. rewrite Hfinal. reflexivity.
    + destruct Hres as [_ [_ [polls [-> _]]]]. rewrite Hfinal. reflexivity.
  - pose proof (stage_run env schedule start) as Hst. fold s in Hst.
    cbn [phase start sendSats stage] in Hst.
    destruct (phase s) as [| | |built|] eqn:Hp; cbn [stage] in Hst; try lia;
      [|exfalso; apply Hnf; reflexivity].
    assert (Hrem : remaining env (closure s) (AwaitBroadcast built) (world s)
                   = (result, final)).
    { unfold Follows in HF. rewrite Hp in HF. exact (proj1 HF). }
    cbn [remaining] in Hrem.
    destruct (broadcast_issues env (this_testnet (closure s)) (toHex built)
                               (world s)) as [added [E Hadded]].
    rewrite Hrem in E. cbn [snd] in E. rewrite Hfinal in E.
    destruct (calls (world s)) as [|r1 [|r2 [|r3 rest]]];
      cbn [app] in E.
    + rewrite <- E in Hadded. inversion Hadded as [|? ? Hb _].
      discriminate Hb.
    + injection E as _ E. rewrite <- E in Hadded.
      inversion Hadded as [|? ? Hb _]. discriminate Hb.
    + injection E as _ _ E. rewrite <- E in Hadded.
      inversion Hadded as [|? ? Hb _]. discriminate Hb.
    + injection E as _ _ E3 _. rewrite <- E3. reflexivity.
Qed.

(** C8, as stated, fails for a value with more than eight decimals: the
    product is not rounded, so for 0.123456789 the builder is asked for
    12345678.9 smallest units, which is no integer. *)
Lemma send_passes_fractions :
  nth_error
    (calls (world (run happyEnv [Resume; Resume; Resume]
                       (send false "LtoAddress" (123456789 # 1000000000)
                             (AssetString "LTC") None)))) 2
  = Some (BuildUTXO litecoin "LfromAddress" "LtoAddress"
                    (12345678900000000 # 1000000000)
                    (spendCandidates exampleUTXOs) None) /\
  (12345678900000000 # 1000000000 == 123456789 # 10)%Q /\
  forall n : Z, ~ (12345678900000000 # 1000000000 == inject_Z n)%Q.
Proof.
  split; [reflexivity|]. split; [reflexivity|].
  intros n H. unfold Qeq, inject_Z in H. simpl in H. lia.
Qed.

(** C8, amended.  [send] hands [sendSats] the value times 10^8, exactly and
    unrounded, and nothing downstream converts it again: when the key and
    the UTXO query answer, the request the send makes to the builder asks
    for that product, and no request to the builder ever asks for anything
    else.  The product is a whole number of smallest units exactly when the
    value is a whole number of 10^-8 units. *)
Theorem send_converts_once :
  forall testnet to value asset options,
    (valueIn (closure (send testnet to value asset options))
     == value * inject_Z (10 ^ 8))%Q /\
    (forall n : Z,
        (value * inject_Z (10 ^ 8) == inject_Z n)%Q
        <-> (value == n # 100000000)%Q) /\
    (forall env schedule fromAddress fetched,
        privateKey_getAddress env 0 = inr fromAddress ->
        Sochain_fetchUTXOs env 1 (sochainNetwork testnet) fromAddress
          (defaultConfirmations (spreadConfirmations options)) = inr fetched ->
        (3 <= countResumes schedule)%nat ->
        exists sent,
          nth_error
            (calls (world (run env schedule
                               (send testnet to value asset options)))) 2
          = Some (BuildUTXO (bitcoinNetwork testnet) fromAddress to sent
                            (spendCandidates fetched) options) /\
          (sent == value * inject_Z (10 ^ 8))%Q) /\
    (forall env schedule request,
        In request
           (calls (world (run env schedule
                              (send testnet to value asset options)))) ->
        match request with
        | BuildUTXO _ _ _ sent _ _ => (sent == value * inject_Z (10 ^ 8))%Q
        | _ => True
        end).
Proof.
  intros testnet to value asset options.
  assert (Hv : (BigNumber.times value
                  (BigNumber.exponentiatedBy (BigNumber.ofZ 10) decimals)
                == value * inject_Z (10 ^ 8))%Q).
  { unfold BigNumber.times.
    change (BigNumber.exponentiatedBy (BigNumber.ofZ 10) decimals)
      with (inject_Z (10 ^ 8)).
    reflexivity. }
  split; [exact Hv|]. split; [|split].
  - intros n. destruct value as [p q].
    unfold Qeq, Qmult, inject_Z. simpl.
    rewrite !Pos.mul_1_r. split; intros H; lia.
  - intros env schedule fromAddress fetched G F H3.
    eexists. split; [|exact Hv].
    unfold send. apply third_call_builds; assumption.
  - intros env schedule request Hin. unfold send in *.
    destruct (reachable_sendSats env schedule testnet to
                (BigNumber.times value
                   (BigNumber.exponentiatedBy (BigNumber.ofZ 10) decimals))
                asset options) as [_ [Hb _]].
    rewrite closure_run in Hb. rewrite Forall_forall in Hb.
    specialize (Hb request Hin).
    destruct request; try exact I.
    cbn [buildsValue closure sendSats valueIn] in Hb. rewrite Hb. exact Hv.
Qed.

Lemma send_converts_once_witness :
  privateKey_getAddress happyEnv 0 = inr "LfromAddress"%string /\
  exists sent,
    nth_error
      (calls (world (run happyEnv [Resume; Tick; Resume; Resume; Resume; Tick]
                         (send false "LtoAddress" (3 # 2) (AssetString "LTC")
                               None)))) 2
    = Some (BuildUTXO litecoin "LfromAddress" "LtoAddress" sent
                      (spendCandidates exampleUTXOs) None) /\
    (sent == (3 # 2) * inject_Z (10 ^ 8))%Q.
Proof.
  split; [reflexivity|].
  apply (proj1 (proj2 (proj2 (send_converts_once false "LtoAddress"%string
                                (3 # 2) (AssetString "LTC") None)))
               happyEnv [Resume; Tick; Resume; Resume; Resume; Tick]
               "LfromAddress"%string exampleUTXOs).
  - reflexivity.
  - reflexivity.
  - cbv. lia.
Defined.
